(** * gpt_analyzer: response cleaning, JSON extraction and the three
      model-invoking operations of [analyzers/gpt_analyzer.py].

    Python values are embedded as follows.
    - A [str] is the list of its Unicode code points ([pystr], code points as
      [N]).  Literals are written as UTF-8 text and decoded by [u].
    - Objects that the program receives from [json.loads] or builds itself
      (None, bool, int, float, str, list, dict) are [pyval]; a dict keeps its
      insertion order, so it is an association list with Python's update
      semantics.  A float is idealised as a real number.
    - Exceptions and calls to the outside world (the environment variable,
      the chat model, the embedding model, [json]) are explicit: an
      operation is a function from the trace of external calls made so far
      to an outcome (returned value or raised exception) and the new trace. *)

From Stdlib Require Import String Ascii.
From Stdlib Require Import List NArith ZArith Lia Bool.
From Stdlib Require Import Reals Lra.
Import ListNotations.

Set Implicit Arguments.

(* ------------------------------------------------------------------ *)
(** ** Strings *)

Module PyStr.

Definition pystr := list N.

(** Decoder of UTF-8 literals: [acc] holds the bits read so far and [k] the
    number of continuation bytes still expected. *)
Fixpoint decode_utf8 (s : string) (acc : N) (k : nat) : pystr :=
  match s with
  | EmptyString => []
  | String a s' =>
      let b := N_of_ascii a in
      match k with
      | O =>
          if (b <? 128)%N then b :: decode_utf8 s' 0%N 0
          else if (b <? 224)%N then decode_utf8 s' (b - 192)%N 1
          else if (b <? 240)%N then decode_utf8 s' (b - 224)%N 2
          else decode_utf8 s' (b - 240)%N 3
      | S O => (acc * 64 + (b - 128))%N :: decode_utf8 s' 0%N 0
      | S k' => decode_utf8 s' (acc * 64 + (b - 128))%N k'
      end
  end.

Definition u (s : string) : pystr := decode_utf8 s 0%N 0.

Definition eqb (a b : pystr) : bool :=
  if list_eq_dec N.eq_dec a b then true else false.

(** [str.startswith] *)
Fixpoint startswith (p s : pystr) : bool :=
  match p, s with
  | [], _ => true
  | _ :: _, [] => false
  | a :: p', b :: s' => (a =? b)%N && startswith p' s'
  end.

(** The code points for which [str.isspace] holds; they are the ones
    [str.strip()] removes. *)
Definition isspace (c : N) : bool :=
  ((9 <=? c) && (c <=? 13) || (28 <=? c) && (c <=? 32)
   || (c =? 133) || (c =? 160) || (c =? 5760)
   || (8192 <=? c) && (c <=? 8202)
   || (c =? 8232) || (c =? 8233) || (c =? 8239) || (c =? 8287)
   || (c =? 12288))%N.

Fixpoint lstrip (s : pystr) : pystr :=
  match s with
  | [] => []
  | c :: s' => if isspace c then lstrip s' else s
  end.

Definition rstrip (s : pystr) : pystr := rev (lstrip (rev s)).

(** [str.strip()] with no argument. *)
Definition strip (s : pystr) : pystr := lstrip (rstrip s).

(** [str.lower()], one code point at a time.  The table lists every code
    point whose lower-case form contains an ASCII code point: the letters
    A to Z, U+0130 (which becomes "i" followed by U+0307) and U+212A (the
    Kelvin sign, which becomes "k").  Every other cased code point is mapped
    by Python to code points outside ASCII; they are left as they are here,
    which is indistinguishable for the only use the program makes of
    [lower], a prefix comparison with an ASCII literal. *)
Definition lower_char (c : N) : pystr :=
  if ((65 <=? c) && (c <=? 90))%N then [(c + 32)%N]
  else if (c =? 304)%N then [105%N; 775%N]
  else if (c =? 8490)%N then [107%N]
  else [c].

Definition lower (s : pystr) : pystr := flat_map lower_char s.

(** Position of the first occurrence of [sub] in [s]. *)
Fixpoint index_of (sub s : pystr) : option nat :=
  if startswith sub s then Some 0
  else match s with
       | [] => None
       | _ :: s' => option_map S (index_of sub s')
       end.

(** Position of the last occurrence of [sub] in [s]. *)
Fixpoint rindex_of (sub s : pystr) : option nat :=
  match s with
  | [] => if startswith sub [] then Some 0 else None
  | _ :: s' =>
      match rindex_of sub s' with
      | Some i => Some (S i)
      | None => if startswith sub s then Some 0 else None
      end
  end.

Definition pos_or_minus1 (o : option nat) : Z :=
  match o with
  | Some i => Z.of_nat i
  | None => (-1)%Z
  end.

(** [str.find] and [str.rfind]: the index, or -1. *)
Definition find (sub s : pystr) : Z := pos_or_minus1 (index_of sub s).
Definition rfind (sub s : pystr) : Z := pos_or_minus1 (rindex_of sub s).

(** A slice bound as Python normalises it: a negative bound counts from the
    end, and the result is clamped to the string. *)
Definition clamp (i len : Z) : Z :=
  if (i <? 0)%Z then Z.max 0 (i + len) else Z.min i len.

(** [s[a:b]] *)
Definition slice (s : pystr) (a b : Z) : pystr :=
  let len := Z.of_nat (length s) in
  let a' := clamp a len in
  let b' := clamp b len in
  firstn (Z.to_nat (b' - a')) (skipn (Z.to_nat a') s).

(** [s[a:]] *)
Definition slice_from (s : pystr) (a : Z) : pystr :=
  skipn (Z.to_nat (clamp a (Z.of_nat (length s)))) s.

(** [str.split(sep)] for a non-empty separator: the pieces between the
    non-overlapping occurrences of [sep], scanned from the left.  [skip]
    counts the code points of a matched separator still to be passed over,
    [cur] is the piece being collected, most recent code point first. *)
Fixpoint split_go (sep : pystr) (skip : nat) (cur s : pystr) : list pystr :=
  match s with
  | [] => [rev cur]
  | c :: s' =>
      match skip with
      | S k => split_go sep k cur s'
      | O =>
          if startswith sep s
          then rev cur :: split_go sep (length sep - 1) [] s'
          else split_go sep 0 (c :: cur) s'
      end
  end.

Definition split (sep s : pystr) : list pystr := split_go sep 0 [] s.

End PyStr.
Import PyStr.

(* ------------------------------------------------------------------ *)
(** ** The response cleaner *)

Definition fence : pystr := u "```".
Definition json_marker : pystr := u "json".

(** [truncate_document] *)
Definition truncate_document (A : Type) (document_content : A) : A :=
  document_content.

(** The second conditional of [clean_gpt_output]. *)
Definition drop_json_marker (output : pystr) : pystr :=
  if startswith json_marker (lower output)
  then strip (slice_from output 4)
  else output.

(** [clean_gpt_output] *)
Definition clean_gpt_output (output : pystr) : pystr :=
  let output := strip output in
  let output :=
    if startswith fence output then
      let parts := split fence output in
      if 3 <=? length parts then strip (nth 1 parts []) else output
    else output in
  drop_json_marker output.

(* ------------------------------------------------------------------ *)
(** ** Python objects *)

#[warnings="-register-all"] Inductive pyval : Type :=
| PNone
| PBool (b : bool)
| PInt (z : Z)
| PFloat (x : R)
| PStr (s : pystr)
| PList (l : list pyval)
| PDict (d : list (pystr * pyval)).

Definition pydict := list (pystr * pyval).

(** Truth value of an object, as [if not x] tests it. *)
Definition truthy (v : pyval) : bool :=
  match v with
  | PNone => false
  | PBool b => b
  | PInt z => negb (z =? 0)%Z
  | PFloat x => if Req_dec_T x 0%R then false else true
  | PStr s => negb (PyStr.eqb s [])
  | PList l => match l with [] => false | _ => true end
  | PDict d => match d with [] => false | _ => true end
  end.

(** [isinstance(v, list)] *)
Definition is_list (v : pyval) : bool :=
  match v with PList _ => true | _ => false end.

(** [d.get(k)] *)
Fixpoint dict_get (d : pydict) (k : pystr) : option pyval :=
  match d with
  | [] => None
  | (k', v) :: d' => if PyStr.eqb k' k then Some v else dict_get d' k
  end.

(** [d[k] = v]: an existing key keeps its place, a new key goes last. *)
Fixpoint dict_set (d : pydict) (k : pystr) (v : pyval) : pydict :=
  match d with
  | [] => [(k, v)]
  | (k', v') :: d' =>
      if PyStr.eqb k' k then (k', v) :: d' else (k', v') :: dict_set d' k v
  end.

(* ------------------------------------------------------------------ *)
(** ** Exceptions *)

Inductive exn_class : Type :=
| OpenAIError
| ValueError
| JSONDecodeError
| KeyError
| TypeError
| AttributeError
| RecursionError
| UnicodeEncodeError
| OtherError.

Record exn : Type := Exn { exn_cls : exn_class; exn_msg : pystr }.

(** [except c] catches the instances of [c]; [json.JSONDecodeError] and
    [UnicodeEncodeError] derive from [ValueError], [RecursionError] does
    not. *)
Definition caught_by (c : exn_class) (e : exn) : bool :=
  match c, exn_cls e with
  | OpenAIError, OpenAIError => true
  | ValueError, ValueError => true
  | ValueError, JSONDecodeError => true
  | ValueError, UnicodeEncodeError => true
  | RecursionError, RecursionError => true
  | UnicodeEncodeError, UnicodeEncodeError => true
  | JSONDecodeError, JSONDecodeError => true
  | KeyError, KeyError => true
  | TypeError, TypeError => true
  | AttributeError, AttributeError => true
  | OtherError, OtherError => true
  | _, _ => false
  end.

Inductive outcome (A : Type) : Type :=
| Ret (a : A)
| Raise (e : exn).
Arguments Ret {A} a.
Arguments Raise {A} e.

Definition obind (A B : Type) (o : outcome A) (k : A -> outcome B) : outcome B :=
  match o with
  | Ret a => k a
  | Raise e => Raise e
  end.

(** [try: body  except handles as e: handler e] *)
Definition try_except (A : Type) (body : outcome A) (handles : exn -> bool)
    (handler : exn -> outcome A) : outcome A :=
  match body with
  | Ret a => Ret a
  | Raise e => if handles e then handler e else Raise e
  end.

Fixpoint omap (A B : Type) (f : A -> outcome B) (l : list A) : outcome (list B) :=
  match l with
  | [] => Ret []
  | x :: l' => obind (f x) (fun y => obind (omap f l') (fun ys => Ret (y :: ys)))
  end.

(* ------------------------------------------------------------------ *)
(** ** The outside world *)

(** [ChatOpenAI(model=..., temperature=..., api_key=...)]; [api_key] is
    [None] when the argument is not passed. *)
Record chat_model : Type := ChatModel {
  model : pystr;
  temperature : Z;
  api_key : option pystr
}.

(** The three literal prompt texts. *)
Inductive template_text : Type :=
| answer_template
| question_template
| evaluation_template.

Record PromptTemplate : Type := {
  input_variables : list pystr;
  template : template_text
}.

Record LLMChain : Type := {
  llm : chat_model;
  prompt : PromptTemplate
}.

(** What the program cannot compute by itself.  [ChatOpenAI_init m] is
    [Some e] when constructing the client raises [e]; [chain_run] is the reply
    of the model or the exception of the call; [json_loads] gives the decoded
    object or the exception [json.loads] raises (a [JSONDecodeError] for a
    text that is not JSON, but also a plain [ValueError] for an integer of
    too many digits and a [RecursionError] for arrays nested too deep);
    [encode] is the embedding model. *)
Record World : Type := {
  getenv : pystr -> option pystr;
  ChatOpenAI_init : chat_model -> option exn;
  chain_run : LLMChain -> list (pystr * pystr) -> pystr + exn;
  json_loads : pystr -> pyval + exn;
  json_dumps : pyval -> pystr;
  py_str : pyval -> pystr;
  encode : pyval -> list R + exn
}.

Inductive event : Type :=
| EvChatOpenAI (m : chat_model)
| EvRun (c : LLMChain) (inputs : list (pystr * pystr)).

Definition trace := list event.

(** An operation: from the calls made so far to an outcome and the calls
    made by the end, oldest first. *)
Definition M (A : Type) : Type := trace -> outcome A * trace.

Definition ret (A : Type) (a : A) : M A := fun t => (Ret a, t).
Definition raise (A : Type) (e : exn) : M A := fun t => (Raise e, t).
Definition lift (A : Type) (o : outcome A) : M A := fun t => (o, t).
Definition bind (A B : Type) (m : M A) (k : A -> M B) : M B :=
  fun t =>
    match m t with
    | (Ret a, t') => k a t'
    | (Raise e, t') => (Raise e, t')
    end.

Arguments ret {A} a _.
Arguments raise {A} e _.
Arguments lift {A} o _.

Notation "x <- m ;; k" := (bind m (fun x => k))
  (at level 61, m at next level, right associativity).

Definition new_ChatOpenAI (W : World) (m : chat_model) : M chat_model :=
  fun t =>
    match ChatOpenAI_init W m with
    | Some e => (Raise e, t ++ [EvChatOpenAI m])
    | None => (Ret m, t ++ [EvChatOpenAI m])
    end.

Definition run (W : World) (c : LLMChain) (inputs : list (pystr * pystr)) : M pystr :=
  fun t =>
    match chain_run W c inputs with
    | inl reply => (Ret reply, t ++ [EvRun c inputs])
    | inr e => (Raise e, t ++ [EvRun c inputs])
    end.

(** Whether the model has been called in a trace. *)
Definition is_run (ev : event) : bool :=
  match ev with EvRun _ _ => true | EvChatOpenAI _ => false end.

Definition model_called (t : trace) : bool := existsb is_run t.

(* ------------------------------------------------------------------ *)
(** ** JSON extraction *)

(** [json.loads] as a call that may raise. *)
Definition loads (W : World) (s : pystr) : outcome pyval :=
  match json_loads W s with
  | inl v => Ret v
  | inr e => Raise e
  end.

(** [{"error": msg, "raw_response": raw}] *)
Definition error_object (msg raw : pystr) : pyval :=
  PDict [(u "error", PStr msg); (u "raw_response", PStr raw)].

(** [parse_gpt_response] *)
Definition parse_gpt_response (W : World) (response_text : pystr) : outcome pyval :=
  try_except
    (let cleaned_text := clean_gpt_output response_text in
     if negb (truthy (PStr cleaned_text)) then
       Ret (error_object (u "GPT 응답이 비어 있습니다.") response_text)
     else
       let start := find (u "[") cleaned_text in
       let end_ := (rfind (u "]") cleaned_text + 1)%Z in
       if (start =? -1)%Z || (end_ =? -1)%Z then
         Raise (Exn ValueError (u "GPT 응답에서 JSON 데이터를 찾을 수 없습니다."))
       else
         let json_str := slice cleaned_text start end_ in
         obind (loads W json_str) (fun parsed_response =>
           if negb (truthy parsed_response) then
             Ret (error_object (u "GPT 응답이 빈 JSON 배열입니다.") response_text)
           else Ret parsed_response))
    (fun e => caught_by JSONDecodeError e || caught_by ValueError e)
    (fun e =>
       Ret (error_object (u "응답을 JSON으로 변환할 수 없습니다: " ++ exn_msg e)
              response_text)).

(* ------------------------------------------------------------------ *)
(** ** Embedding score *)

Definition vec := list R.

Fixpoint dot (a b : vec) : R :=
  match a, b with
  | x :: a', y :: b' => (x * y + dot a' b')%R
  | _, _ => 0%R
  end.

Definition norm (v : vec) : R := sqrt (dot v v).

Definition eps : R := (/ 1000000000000)%R.

(** [torch.nn.functional.normalize]: each component divided by
    [max(norm, eps)]. *)
Definition normalize (v : vec) : vec :=
  map (fun x => (x / Rmax (norm v) eps)%R) v.

(** [util.pytorch_cos_sim] for two single embeddings: the product of the
    normalised vectors.  Both come from the same model and have the same
    number of components.  The arithmetic is that of the real numbers: the
    code computes in 32-bit floating point, whose rounding is not followed
    here, so a result carries over to the code only where no rounding
    occurs. *)
Definition pytorch_cos_sim (a b : vec) : R :=
  dot (normalize a) (normalize b).

Definition oencode (W : World) (text : pyval) : outcome vec :=
  match encode W text with
  | inl v => Ret v
  | inr e => Raise e
  end.

(** [compute_embedding_score] *)
Definition compute_embedding_score (W : World) (question : pyval)
    (document_text : pystr) : outcome R :=
  obind (oencode W question) (fun q_emb =>
  obind (oencode W (PStr document_text)) (fun doc_emb =>
  let score := pytorch_cos_sim q_emb doc_emb in
  Ret score)).

(* ------------------------------------------------------------------ *)
(** ** The three operations *)

Definition OPENAI_API_KEY : pystr := u "OPENAI_API_KEY".
Definition key_question : pystr := u "질문".
Definition key_embedding_score : pystr := u "embedding_score".

(** [not api_key] for the result of [os.getenv]. *)
Definition key_missing (api_key : option pystr) : bool :=
  match api_key with
  | None => true
  | Some k => negb (truthy (PStr k))
  end.

Definition missing_key_error : exn :=
  Exn OpenAIError (u "OPENAI_API_KEY가 설정되어 있지 않습니다.").

(** [for doc in v]: the objects an iteration over [v] yields. *)
Definition py_iter (v : pyval) : outcome (list pyval) :=
  match v with
  | PList l => Ret l
  | PDict d => Ret (map (fun kv => PStr (fst kv)) d)
  | PStr s => Ret (map (fun c => PStr [c]) s)
  | _ => Raise (Exn TypeError (u "object is not iterable"))
  end.

(** [v[k]] for a string key [k]. *)
Definition py_getitem (v : pyval) (k : pystr) : outcome pyval :=
  match v with
  | PDict d =>
      match dict_get d k with
      | Some x => Ret x
      | None => Raise (Exn KeyError k)
      end
  | PStr _ | PList _ => Raise (Exn TypeError (u "indices must be integers"))
  | _ => Raise (Exn TypeError (u "object is not subscriptable"))
  end.

(** [v.get(k, default)] *)
Definition py_get (v : pyval) (k : pystr) (default : pyval) : outcome pyval :=
  match v with
  | PDict d =>
      match dict_get d k with
      | Some x => Ret x
      | None => Ret default
      end
  | _ => Raise (Exn AttributeError (u "object has no attribute 'get'"))
  end.

(** [v[k] = x] *)
Definition py_setitem (v : pyval) (k : pystr) (x : pyval) : outcome pyval :=
  match v with
  | PDict d => Ret (PDict (dict_set d k x))
  | _ => Raise (Exn TypeError (u "object does not support item assignment"))
  end.

(** [qa.get("질문", "")] on a dict. *)
Definition question_of (d : pydict) : pyval :=
  match dict_get d key_question with
  | Some x => x
  | None => PStr []
  end.

(** The list comprehension over [relevant_docs]. *)
Definition question_list (relevant_docs : pyval) : outcome (list pyval) :=
  obind (py_iter relevant_docs) (fun docs =>
  omap (fun doc =>
          obind (py_getitem doc key_question) (fun q =>
          Ret (PDict [(key_question, q)]))) docs).

(** The body of the loop over [qa_pairs]. *)
Definition attach_score (W : World) (document_content : pystr) (qa : pyval)
    : outcome pyval :=
  obind (py_get qa key_question (PStr [])) (fun question_text =>
  obind (compute_embedding_score W question_text document_content) (fun score =>
  py_setitem qa key_embedding_score (PFloat score))).

Definition answer_prompt : PromptTemplate :=
  {| input_variables := [u "file_type"; u "document_content"; u "questions"];
     template := answer_template |}.

(** The [isinstance(relevant_docs, str)] block of [analyze_with_gpt]. *)
Definition load_relevant_docs (W : World) (relevant_docs : pyval) : outcome pyval :=
  match relevant_docs with
  | PStr s =>
      try_except (loads W s) (caught_by JSONDecodeError)
        (fun _ => Raise (Exn ValueError
           (u "relevant_docs 문자열을 JSON으로 변환할 수 없습니다.")))
  | _ => Ret relevant_docs
  end.

(** The inputs [analyze_with_gpt] hands to [chain.run]. *)
Definition answer_inputs (W : World) (file_type full_content : pystr)
    (questions : list pyval) : list (pystr * pystr) :=
  [(u "file_type", file_type);
   (u "document_content", full_content);
   (u "questions", json_dumps W (PList questions))].

(** [analyze_with_gpt] *)
Definition analyze_with_gpt (W : World) (file_type : pystr) (relevant_docs : pyval)
    (document_content : pystr) : M pyval :=
  let api_key := getenv W OPENAI_API_KEY in
  if key_missing api_key then raise missing_key_error
  else
    model <- new_ChatOpenAI W (ChatModel (u "gpt-4o") 0 api_key) ;;
    let full_content := truncate_document document_content in
    relevant_docs <- lift (load_relevant_docs W relevant_docs) ;;
    questions <- lift (question_list relevant_docs) ;;
    let chain := {| llm := model; prompt := answer_prompt |} in
    result <- run W chain (answer_inputs W file_type full_content questions) ;;
    qa_pairs <- lift (parse_gpt_response W result) ;;
    match qa_pairs with
    | PList l =>
        l' <- lift (omap (attach_score W document_content) l) ;;
        ret (PList l')
    | _ => ret qa_pairs
    end.

Definition question_prompt : PromptTemplate :=
  {| input_variables := [u "document"]; template := question_template |}.

(** [generate_questions] *)
Definition generate_questions (W : World) (document_content : pyval) : M pyval :=
  let document_content :=
    match document_content with
    | PStr s => s
    | v => py_str W v
    end in
  model <- new_ChatOpenAI W (ChatModel (u "gpt-4o-mini") 0 None) ;;
  let chain := {| llm := model; prompt := question_prompt |} in
  result <- run W chain [(u "document", document_content)] ;;
  let cleaned_result := clean_gpt_output result in
  lift (try_except
          (obind (loads W cleaned_result) (fun questions =>
             if negb (is_list questions)
                || negb (match questions with
                         | PList l => length l =? 10
                         | _ => false
                         end)
             then Raise (Exn ValueError (u "생성된 질문의 수가 10개가 아닙니다."))
             else Ret questions))
          (fun e => caught_by JSONDecodeError e || caught_by ValueError e)
          (fun e =>
             Ret (error_object
                    (u "질문 생성 응답을 JSON으로 변환할 수 없습니다: " ++ exn_msg e)
                    cleaned_result))).

Definition evaluation_prompt : PromptTemplate :=
  {| input_variables := [u "qa_pairs"]; template := evaluation_template |}.

(** [evaluate_qa_pairs] *)
Definition evaluate_qa_pairs (W : World) (qa_pairs : pyval) : M pyval :=
  let api_key := getenv W OPENAI_API_KEY in
  if key_missing api_key then raise missing_key_error
  else
    model <- new_ChatOpenAI W (ChatModel (u "gpt-4o-mini") 0 api_key) ;;
    let chain := {| llm := model; prompt := evaluation_prompt |} in
    result <- run W chain [(u "qa_pairs", json_dumps W qa_pairs)] ;;
    lift (try_except
            (obind (loads W (clean_gpt_output result)) (fun evaluation =>
               Ret evaluation))
            (fun _ => true)
            (fun e =>
               Ret (error_object
                      (u "평가 결과를 JSON으로 변환할 수 없습니다: " ++ exn_msg e)
                      result))).

(** Lookup in the inputs handed to [chain.run]. *)
Fixpoint input_get (inputs : list (pystr * pystr)) (k : pystr) : option pystr :=
  match inputs with
  | [] => None
  | (k', v) :: rest => if PyStr.eqb k' k then Some v else input_get rest k
  end.

(** An event that is a model call passes [document_content] as the document. *)
Definition passes_document (document_content : pystr) (ev : event) : Prop :=
  match ev with
  | EvRun _ inputs => input_get inputs (u "document_content") = Some document_content
  | EvChatOpenAI _ => True
  end.

(** A pair as the loop leaves it: the same dict, with the score under
    "embedding_score". *)
Definition scored (W : World) (doc_emb : vec) (qa qa' : pyval) : Prop :=
  exists d d' q_emb,
    qa = PDict d /\ qa' = PDict d' /\
    encode W (question_of d) = inl q_emb /\
    dict_get d' key_embedding_score = Some (PFloat (pytorch_cos_sim q_emb doc_emb)) /\
    forall k, k <> key_embedding_score -> dict_get d' k = dict_get d k.

(** A pair the loop can handle: a dict whose question the embedding model
    accepts. *)
Definition scorable (W : World) (qa : pyval) : Prop :=
  exists d q_emb, qa = PDict d /\ encode W (question_of d) = inl q_emb.

(* ------------------------------------------------------------------ *)
(** ** The script *)

(** What the script takes from its host: [sys.argv], the line [input]
    reads for a prompt (or the exception it raises), whether a file can be
    opened for writing ([Some e] when [open] raises [e]), and whether
    [json.dump] into the opened file gets through ([Some e] when it raises
    [e], as it does with a [UnicodeEncodeError] on a string holding a lone
    surrogate). *)
Record Host : Type := {
  argv : list pystr;
  input : pystr -> pystr + exn;
  open_w : pystr -> option exn;
  dump_error : pyval -> option exn
}.

(** What the script does that can be observed: the calls of the three
    operations, what it prints (a label, and the object printed after it if
    any), the file it opens for writing, which is emptied by that, and what
    a completed [json.dump] has written to it. *)
Inductive script_event : Type :=
| Called (ev : event)
| Printed (label : pystr) (value : option pyval)
| Opened (filename : pystr)
| Wrote (filename : pystr) (value : pyval).

Definition script_log := list script_event.

Definition S_ (A : Type) : Type := script_log -> outcome A * script_log.

Definition sret (A : Type) (a : A) : S_ A := fun log => (Ret a, log).
Definition sbind (A B : Type) (m : S_ A) (k : A -> S_ B) : S_ B :=
  fun log =>
    match m log with
    | (Ret a, log') => k a log'
    | (Raise e, log') => (Raise e, log')
    end.
Arguments sret {A} a _.

Notation "x <~ m ;; k" := (sbind m (fun x => k))
  (at level 61, m at next level, right associativity).

(** A call of one of the operations: its external calls go to the log. *)
Definition call (A : Type) (m : M A) : S_ A :=
  fun log => let (o, evs) := m [] in (o, log ++ map Called evs).

Definition print (label : pystr) (value : option pyval) : S_ unit :=
  fun log => (Ret tt, log ++ [Printed label value]).

Definition read_input (H : Host) (prompt_text : pystr) : S_ pystr :=
  fun log =>
    match input H prompt_text with
    | inl line => (Ret line, log)
    | inr e => (Raise e, log)
    end.

(** [with open(filename, "w", encoding="utf-8") as f: json.dump(value, f, ...)]:
    opening the file may raise, and so may the dump, which then leaves the
    file opened and incomplete. *)
Definition dump_to (H : Host) (filename : pystr) (value : pyval) : S_ unit :=
  fun log =>
    match open_w H filename with
    | Some e => (Raise e, log)
    | None =>
        match dump_error H value with
        | Some e => (Raise e, log ++ [Opened filename])
        | None => (Ret tt, log ++ [Opened filename; Wrote filename value])
        end
    end.

Definition result_file : pystr := u "Result.json".

(** [{"질문": q}] *)
Definition as_question (q : pyval) : pyval := PDict [(key_question, q)].

(** [{"qa_pairs": qa_pairs, "evaluation": evaluation}] *)
Definition final_result (qa_pairs evaluation : pyval) : pyval :=
  PDict [(u "qa_pairs", qa_pairs); (u "evaluation", evaluation)].

(** The labels the script prints. *)
Definition label_questions : pystr := u "생성된 질문:".
Definition label_qa : pystr := u "생성된 Q&A 결과:".
Definition label_evaluation : pystr := u "평가 결과:".
Definition label_saved : pystr := u "결과가 'Result.json'에 저장되었습니다.".
Definition label_problem : pystr := u "질문 생성에 문제가 발생했습니다:".
Definition label_prompt : pystr := u "문서 내용을 입력하세요: ".

(** The block under [if __name__ == "__main__"]. *)
Definition main (W : World) (H : Host) : S_ unit :=
  document_content <~
    (if 1 <? length (argv H) then sret (nth 1 (argv H) [])
     else read_input H label_prompt) ;;
  questions <~ call (generate_questions W (PStr document_content)) ;;
  _ <~ print label_questions (Some questions) ;;
  match questions with
  | PList qs =>
      if length qs =? 10 then
        let questions_list := map as_question qs in
        let file_type := u "PDF" in
        qa_pairs <~ call (analyze_with_gpt W file_type (PList questions_list)
                            document_content) ;;
        _ <~ print label_qa (Some qa_pairs) ;;
        evaluation <~ call (evaluate_qa_pairs W qa_pairs) ;;
        _ <~ print label_evaluation (Some evaluation) ;;
        _ <~ dump_to H result_file (final_result qa_pairs evaluation) ;;
        print label_saved None
      else print label_problem (Some questions)
  | _ => print label_problem (Some questions)
  end.

Definition is_wrote (ev : script_event) : bool :=
  match ev with Wrote _ _ => true | _ => false end.

Definition is_opened (ev : script_event) : bool :=
  match ev with Opened _ => true | _ => false end.

Definition is_model_call (ev : script_event) : bool :=
  match ev with Called (EvRun _ _) => true | _ => false end.

(* ------------------------------------------------------------------ *)
(** ** Predicates used in the statements *)

(** [isinstance(v, dict)] *)
Definition is_dict (v : pyval) : bool :=
  match v with PDict _ => true | _ => false end.

(** [isinstance(v, str)] *)
Definition is_str (v : pyval) : bool :=
  match v with PStr _ => true | _ => false end.

(** A dict that has the key "질문". *)
Definition has_question (v : pyval) : Prop :=
  exists d q, v = PDict d /\ dict_get d key_question = Some q.

(** The client of an event was asked for temperature 0. *)
Definition zero_temperature (ev : event) : Prop :=
  match ev with
  | EvChatOpenAI m => temperature m = 0%Z
  | EvRun c _ => temperature (llm c) = 0%Z
  end.

(* ------------------------------------------------------------------ *)
(** ** Concrete inputs *)

Definition nl : pystr := [10%N].

(** The literal reply of the spec, a fenced block with the marker. *)
Definition fenced_reply : pystr :=
  u "```json" ++ nl ++ u "[1,2]" ++ nl ++ u "```".

(** A reply whose fence is never closed. *)
Definition unclosed_reply : pystr := u "```json" ++ nl ++ u "[1,2]".

Definition dq : pystr := [34%N].
Definition quoted (s : pystr) : pystr := dq ++ s ++ dq.

(** A reply with one question and its answer. *)
Definition qa_reply : pystr :=
  u "[{" ++ quoted key_question ++ u ": " ++ quoted (u "What?") ++ u ", "
    ++ quoted (u "답변") ++ u ": " ++ quoted (u "This.") ++ u "}]".

Definition qa_reply_value : pyval :=
  PList [PDict [(key_question, PStr (u "What?")); (u "답변", PStr (u "This."))]].

(** A reply with ten items. *)
Definition ten_reply : pystr := u "[1,2,3,4,5,6,7,8,9,10]".

Definition ten_reply_value : pyval :=
  PList (map PInt [1; 2; 3; 4; 5; 6; 7; 8; 9; 10]%Z).

(** What [json.loads] does on the texts used in the examples: four arrays;
    any other text stands for one that is not JSON. *)
Definition sample_loads (s : pystr) : pyval + exn :=
  if PyStr.eqb s (u "[]") then inl (PList [])
  else if PyStr.eqb s (u "[1,2]") then inl (PList [PInt 1; PInt 2])
  else if PyStr.eqb s ten_reply then inl ten_reply_value
  else if PyStr.eqb s qa_reply then inl qa_reply_value
  else inr (Exn JSONDecodeError (u "Expecting value: line 1 column 1 (char 0)")).

(** An embedding model with one component, for the examples. *)
Definition sample_encode (text : pyval) : list R + exn :=
  match text with
  | PStr s => if PyStr.eqb s (u "What?") then inl [1%R] else inl [(-1)%R]
  | _ => inr (Exn TypeError [])
  end.

(** A world in which the variable OPENAI_API_KEY has the value [key], the
    client is constructed without complaint and the model answers [reply]. *)
Definition sample_world (key : option pystr) (reply : pystr) : World :=
  {| getenv := fun name => if PyStr.eqb name OPENAI_API_KEY then key else None;
     ChatOpenAI_init := fun _ => None;
     chain_run := fun _ _ => inl reply;
     json_loads := sample_loads;
     json_dumps := fun _ => u "[]";
     py_str := fun _ => [];
     encode := sample_encode |}.

(** The question list and the world of the example run of
    [analyze_with_gpt]. *)
Definition qa_docs : pyval := PList [PDict [(key_question, PStr (u "What?"))]].

Definition qa_world : World := sample_world (Some (u "sk")) qa_reply.

(** A reply with two fenced blocks and prose between them. *)
Definition two_blocks_reply : pystr :=
  fenced_reply ++ nl ++ u "or else" ++ nl ++ u "```json" ++ nl ++ u "[]" ++ nl
    ++ u "```".

(** A reply with prose around the array. *)
Definition prose_reply : pystr := u "Here: [1,2] done.".


(** A world whose client can be constructed and whose model call fails. *)
Definition api_error : exn := Exn OtherError (u "Connection error.").

Definition failing_world (key : option pystr) : World :=
  {| getenv := getenv (sample_world key []);
     ChatOpenAI_init := fun _ => None;
     chain_run := fun _ _ => inr api_error;
     json_loads := sample_loads;
     json_dumps := fun _ => u "[]";
     py_str := fun _ => [];
     encode := sample_encode |}.


(** The document the script works on: [sys.argv[1]] when there is one, the
    line read by [input] otherwise. *)
Definition reads_document (H : Host) (doc : pystr) : Prop :=
  (1 < length (argv H) /\ nth 1 (argv H) [] = doc) \/
  (length (argv H) <= 1 /\ input H label_prompt = inl doc).

(** A host that passes the document on the command line and lets the file
    be opened. *)
Definition sample_host : Host :=
  {| argv := [u "gpt_analyzer.py"; u "text"];
     input := fun _ => inr (Exn OtherError (u "EOF when reading a line"));
     open_w := fun _ => None;
     dump_error := fun _ => None |}.


(** A file written by the script is Result.json. *)
Definition writes_result_file (ev : script_event) : Prop :=
  match ev with
  | Wrote filename _ => filename = result_file
  | Opened filename => filename = result_file
  | _ => True
  end.

(** A world in which the model answers each of the three prompts: ten
    items for the questions, one pair for the answers, an array for the
    evaluation. *)
Definition script_world (key : option pystr) : World :=
  {| getenv := getenv (sample_world key []);
     ChatOpenAI_init := fun _ => None;
     chain_run := fun c _ =>
       match template (prompt c) with
       | question_template => inl ten_reply
       | answer_template => inl qa_reply
       | evaluation_template => inl (u "[1,2]")
       end;
     json_loads := sample_loads;
     json_dumps := fun _ => u "[]";
     py_str := fun _ => [];
     encode := sample_encode |}.


(** [n] opening brackets followed by [n] closing ones. *)
Definition brackets (n : N) : pystr :=
  N.iter n (cons 91%N) (N.iter n (cons 93%N) []).

(** An array nested deeper than [json.loads] can follow: 100001 levels. *)
Definition deep_reply : pystr := u "[" ++ brackets 100000 ++ u "]".

Definition recursion_error : exn :=
  Exn RecursionError
    (u "maximum recursion depth exceeded while decoding a JSON array from a unicode string").

(** [json.loads] with what it does on [deep_reply]. *)
Definition deep_loads (s : pystr) : pyval + exn :=
  if PyStr.eqb s deep_reply then inr recursion_error else sample_loads s.

(** A world in which the key is set and the model answers [deep_reply]. *)
Definition deep_world : World :=
  {| getenv := getenv (sample_world (Some (u "sk")) []);
     ChatOpenAI_init := fun _ => None;
     chain_run := fun _ _ => inl deep_reply;
     json_loads := deep_loads;
     json_dumps := fun _ => u "[]";
     py_str := fun _ => [];
     encode := sample_encode |}.

(** A fenced block without marker whose payload starts with the letters of
    the marker, and a fenced block whose payload holds a fence. *)
Definition jsonify_reply : pystr :=
  fence ++ nl ++ u "jsonify([1,2])" ++ nl ++ fence.

Definition fence_in_payload_reply : pystr :=
  fence ++ u "json" ++ nl ++ u "[" ++ dq ++ fence ++ dq ++ u "]" ++ nl ++ fence.



(* ================================================================== *)
(** * Properties *)

(* ------------------------------------------------------------------ *)
(** ** Strings *)

Section StringFacts.

Lemma eqb_eq (a b : pystr) : PyStr.eqb a b = true <-> a = b.
Proof.
  unfold PyStr.eqb. destruct (list_eq_dec N.eq_dec a b); split; congruence.
Qed.

Lemma eqb_refl (a : pystr) : PyStr.eqb a a = true.
Proof. now apply eqb_eq. Qed.

Lemma eqb_neq (a b : pystr) : a <> b -> PyStr.eqb a b = false.
Proof.
  intros H. unfold PyStr.eqb. destruct (list_eq_dec N.eq_dec a b); congruence.
Qed.

Lemma startswith_app (p s : pystr) : startswith p (p ++ s) = true.
Proof.
  induction p as [|a p IH]; simpl; [reflexivity|].
  now rewrite N.eqb_refl, IH.
Qed.

Lemma startswith_app_long (p x y : pystr) :
  length p <= length x -> startswith p (x ++ y) = startswith p x.
Proof.
  revert x. induction p as [|a p IH]; intros [|b x] H; simpl in *;
    try reflexivity; try lia.
  rewrite IH by lia. reflexivity.
Qed.

Lemma startswith_split (p s : pystr) :
  startswith p s = true -> s = p ++ skipn (length p) s.
Proof.
  revert s. induction p as [|a p IH]; intros [|b s] H; simpl in *;
    try reflexivity; try discriminate.
  apply andb_true_iff in H as [Hab Hp]. apply N.eqb_eq in Hab. subst b.
  f_equal. now apply IH.
Qed.

Lemma lstrip_all_space (p : pystr) :
  forallb isspace p = true -> lstrip p = [].
Proof.
  induction p as [|c p IH]; simpl; [reflexivity|].
  intros H. apply andb_true_iff in H as [Hc Hp]. now rewrite Hc, IH.
Qed.

Lemma lstrip_app_nonspace (p q : pystr) (d : N) :
  isspace d = false -> lstrip (p ++ d :: q) = lstrip p ++ d :: q.
Proof.
  intros Hd. induction p as [|c p IH]; simpl.
  - now rewrite Hd.
  - destruct (isspace c); [exact IH | reflexivity].
Qed.

Lemma lstrip_idem (s : pystr) : lstrip (lstrip s) = lstrip s.
Proof.
  induction s as [|c s IH]; simpl; [reflexivity|].
  destruct (isspace c) eqn:Hc; [exact IH|]. simpl. now rewrite Hc.
Qed.

Lemma forallb_rev (A : Type) (f : A -> bool) (l : list A) :
  forallb f (rev l) = forallb f l.
Proof.
  induction l as [|x l IH]; simpl; [reflexivity|].
  rewrite forallb_app, IH. simpl. rewrite andb_true_r. apply andb_comm.
Qed.

Lemma rstrip_all_space (p : pystr) :
  forallb isspace p = true -> rstrip p = [].
Proof.
  intros H. unfold rstrip. rewrite lstrip_all_space; [reflexivity|].
  now rewrite forallb_rev.
Qed.

Lemma rstrip_app_nonspace (x y : pystr) (d : N) :
  isspace d = false -> rstrip (x ++ d :: y) = x ++ d :: rstrip y.
Proof.
  intros Hd. unfold rstrip.
  rewrite rev_app_distr. simpl. rewrite <- app_assoc. simpl.
  rewrite lstrip_app_nonspace by exact Hd.
  rewrite rev_app_distr. simpl. rewrite rev_involutive.
  rewrite <- app_assoc. reflexivity.
Qed.

Lemma rstrip_idem (s : pystr) : rstrip (rstrip s) = rstrip s.
Proof.
  unfold rstrip. rewrite rev_involutive, lstrip_idem. reflexivity.
Qed.

Lemma strip_rstrip (s : pystr) : strip (rstrip s) = strip s.
Proof. unfold strip. now rewrite rstrip_idem. Qed.

(** Stripping a text that begins and ends with code points that are not
    white space, whatever white space surrounds it. *)
Lemma strip_framed (pre post mid : pystr) (c d : N) :
  forallb isspace pre = true -> forallb isspace post = true ->
  isspace c = false -> isspace d = false ->
  strip (pre ++ (c :: mid ++ [d]) ++ post) = c :: mid ++ [d].
Proof.
  intros Hpre Hpost Hc Hd. unfold strip.
  replace (pre ++ (c :: mid ++ [d]) ++ post)
    with ((pre ++ c :: mid) ++ d :: post)
    by (rewrite <- !app_assoc; simpl; rewrite <- app_assoc; reflexivity).
  rewrite rstrip_app_nonspace by exact Hd.
  rewrite rstrip_all_space by exact Hpost.
  rewrite <- app_assoc. simpl.
  rewrite lstrip_app_nonspace by exact Hc.
  rewrite lstrip_all_space by exact Hpre. reflexivity.
Qed.

Lemma lower_app (a b : pystr) : lower (a ++ b) = lower a ++ lower b.
Proof. unfold lower. apply flat_map_app. Qed.

Lemma lower_char_marker (c x : N) (r : pystr) :
  lower_char c = x :: r ->
  (x = 106 \/ x = 115 \/ x = 111 \/ x = 110)%N ->
  r = [] /\ (c = x \/ (c + 32)%N = x).
Proof.
  unfold lower_char. intros H Hx.
  destruct ((65 <=? c) && (c <=? 90))%N.
  { injection H as <- <-. auto. }
  destruct (c =? 304)%N.
  { injection H as <- <-. lia. }
  destruct (c =? 8490)%N.
  { injection H as <- <-. lia. }
  injection H as <- <-. auto.
Qed.

Lemma lower_char_nonempty (c : N) : lower_char c <> [].
Proof.
  unfold lower_char.
  destruct ((65 <=? c) && (c <=? 90))%N; [discriminate|].
  destruct (c =? 304)%N; [discriminate|].
  destruct (c =? 8490)%N; discriminate.
Qed.

Lemma lower_cons_marker (c x : N) (t rest : pystr) :
  lower (c :: t) = x :: rest ->
  (x = 106 \/ x = 115 \/ x = 111 \/ x = 110)%N ->
  (c = x \/ (c + 32)%N = x) /\ lower t = rest.
Proof.
  unfold lower. simpl. intros H Hx.
  destruct (lower_char c) as [|y r] eqn:E.
  { now apply lower_char_nonempty in E. }
  simpl in H. injection H as -> Hr.
  destruct (lower_char_marker _ E Hx) as [-> Hc]. split; [exact Hc | exact Hr].
Qed.

Lemma lower_nil_inv (t : pystr) : lower t = [] -> t = [].
Proof.
  destruct t as [|c t]; [reflexivity|]. unfold lower. simpl. intros H.
  apply app_eq_nil in H as [H _]. now apply lower_char_nonempty in H.
Qed.

(** The strings that [lower] sends to "json" are its sixteen spellings. *)
Lemma lower_json_inv (tag : pystr) :
  lower tag = json_marker ->
  exists a b c d, tag = [a; b; c; d] /\
    (a = 106 \/ a = 74)%N /\ (b = 115 \/ b = 83)%N /\
    (c = 111 \/ c = 79)%N /\ (d = 110 \/ d = 78)%N.
Proof.
  change json_marker with [106; 115; 111; 110]%N. intros H.
  destruct tag as [|a tag]; [discriminate|].
  apply lower_cons_marker in H as [Ha H]; [|auto].
  destruct tag as [|b tag]; [discriminate|].
  apply lower_cons_marker in H as [Hb H]; [|auto].
  destruct tag as [|c tag]; [discriminate|].
  apply lower_cons_marker in H as [Hc H]; [|auto 6].
  destruct tag as [|d tag]; [discriminate|].
  apply lower_cons_marker in H as [Hd H]; [|auto 6].
  apply lower_nil_inv in H. subst tag.
  exists a, b, c, d. repeat split; try reflexivity; lia.
Qed.

End StringFacts.

(* ------------------------------------------------------------------ *)
(** ** Splitting on a separator *)

Section SplitFacts.

Variable sep : pystr.
Hypothesis sep_nonempty : sep <> [].

Lemma split_go_skip (xs rest cur : pystr) :
  split_go sep (length xs) cur (xs ++ rest) = split_go sep 0 cur rest.
Proof.
  induction xs as [|x xs IH]; simpl; [reflexivity | exact IH].
Qed.

Lemma split_go_sep (cur rest : pystr) :
  split_go sep 0 cur (sep ++ rest) = rev cur :: split_go sep 0 [] rest.
Proof.
  destruct sep as [|c sep'] eqn:E; [congruence|].
  change ((c :: sep') ++ rest) with (c :: (sep' ++ rest)).
  cbn [split_go].
  change (c :: sep' ++ rest) with ((c :: sep') ++ rest).
  rewrite startswith_app. f_equal.
  rewrite <- E.
  replace (length sep - 1) with (length sep') by (rewrite E; simpl; lia).
  apply split_go_skip.
Qed.

Lemma index_of_cons_Some (c : N) (s : pystr) (i : nat) :
  index_of sep (c :: s) = Some (S i) ->
  startswith sep (c :: s) = false /\ index_of sep s = Some i.
Proof.
  cbn [index_of]. destruct (startswith sep (c :: s)); [discriminate|].
  destruct (index_of sep s) as [j|]; [|discriminate].
  simpl. intros H. injection H as ->. auto.
Qed.

Lemma index_of_cons_None (c : N) (s : pystr) :
  index_of sep (c :: s) = None ->
  startswith sep (c :: s) = false /\ index_of sep s = None.
Proof.
  cbn [index_of]. destruct (startswith sep (c :: s)); [discriminate|].
  destruct (index_of sep s); [discriminate | auto].
Qed.

(** The piece collected up to the first separator. *)
Lemma split_go_body (body rest cur : pystr) :
  index_of sep (body ++ sep) = Some (length body) ->
  split_go sep 0 cur (body ++ sep ++ rest) =
  (rev cur ++ body) :: split_go sep 0 [] rest.
Proof.
  revert cur. induction body as [|c body IH]; intros cur H.
  - simpl. rewrite app_nil_r. apply split_go_sep.
  - simpl in H. apply index_of_cons_Some in H as [Hs Hi].
    change ((c :: body) ++ sep ++ rest) with (c :: (body ++ sep ++ rest)).
    cbn [split_go].
    replace (c :: body ++ sep ++ rest) with ((c :: body ++ sep) ++ rest)
      by (simpl; rewrite <- app_assoc; reflexivity).
    rewrite startswith_app_long, Hs
      by (simpl; rewrite length_app; lia).
    rewrite IH by exact Hi. simpl. rewrite <- app_assoc. reflexivity.
Qed.

(** Without any separator the text is the only piece. *)
Lemma split_go_none (s cur : pystr) :
  index_of sep s = None -> split_go sep 0 cur s = [rev cur ++ s].
Proof.
  revert cur. induction s as [|c s IH]; intros cur H.
  - simpl. now rewrite app_nil_r.
  - apply index_of_cons_None in H as [Hs Hi].
    cbn [split_go]. rewrite Hs, IH by exact Hi.
    simpl. rewrite <- app_assoc. reflexivity.
Qed.

Lemma index_of_Some_split (s : pystr) (i : nat) :
  index_of sep s = Some i ->
  exists a b, s = a ++ sep ++ b /\ length a = i.
Proof.
  revert i. induction s as [|c s IH]; intros i H.
  - cbn [index_of] in H. destruct (startswith sep []) eqn:E; [|discriminate].
    injection H as <-. exists [], []. split; [|reflexivity].
    apply startswith_split in E. rewrite E at 1.
    destruct (length sep); simpl; now rewrite app_nil_r.
  - destruct i as [|i].
    + cbn [index_of] in H. destruct (startswith sep (c :: s)) eqn:E.
      * exists [], (skipn (length sep) (c :: s)). split; [|reflexivity].
        now apply startswith_split.
      * destruct (index_of sep s); discriminate.
    + apply index_of_cons_Some in H as [_ Hi].
      destruct (IH _ Hi) as (a & b & -> & <-).
      exists (c :: a), b. split; reflexivity.
Qed.

Lemma index_of_skip_char (c a : N) (sep' s : pystr) :
  sep = a :: sep' -> c <> a ->
  index_of sep (c :: s) = option_map S (index_of sep s).
Proof.
  intros E Hc. cbn [index_of]. rewrite E. cbn [startswith].
  destruct (N.eqb_spec a c); [congruence|]. reflexivity.
Qed.

End SplitFacts.

(* ------------------------------------------------------------------ *)
(** ** The response cleaner *)

Lemma fence_nonempty : fence <> [].
Proof. discriminate. Qed.

Lemma split_fenced (inner rest : pystr) :
  index_of fence (inner ++ fence) = Some (length inner) ->
  split fence (fence ++ inner ++ fence ++ rest) =
  [] :: inner :: split fence rest.
Proof.
  intros H. unfold split.
  rewrite split_go_sep by exact fence_nonempty.
  rewrite split_go_body by (exact H || exact fence_nonempty). reflexivity.
Qed.

(** A fenced block, alone in the reply: the cleaner keeps what is between
    the fences, stripped, and then looks for the marker. *)
Lemma clean_fenced (pre post inner : pystr) :
  forallb isspace pre = true -> forallb isspace post = true ->
  index_of fence (inner ++ fence) = Some (length inner) ->
  clean_gpt_output (pre ++ fence ++ inner ++ fence ++ post) =
  drop_json_marker (strip inner).
Proof.
  intros Hpre Hpost H. unfold clean_gpt_output.
  assert (E : strip (pre ++ fence ++ inner ++ fence ++ post) =
              fence ++ inner ++ fence ++ []).
  { change fence with [96; 96; 96]%N.
    replace (pre ++ [96; 96; 96]%N ++ inner ++ [96; 96; 96]%N ++ post)
      with (pre ++ (96%N :: ([96; 96]%N ++ inner ++ [96; 96]%N) ++ [96%N]) ++ post)
      by (simpl; repeat (rewrite <- app_assoc; simpl); reflexivity).
    rewrite strip_framed by (assumption || reflexivity).
    simpl. repeat (rewrite <- app_assoc; simpl). reflexivity. }
  rewrite E, startswith_app, split_fenced by exact H.
  reflexivity.
Qed.

Lemma strip_marked (tag body : pystr) :
  lower tag = json_marker ->
  drop_json_marker (strip (tag ++ body)) = strip body.
Proof.
  intros Htag.
  destruct (lower_json_inv _ Htag) as (a & b & c & d & -> & Ha & Hb & Hc & Hd).
  assert (Sa : isspace a = false) by (destruct Ha; subst; reflexivity).
  assert (Sd : isspace d = false) by (destruct Hd; subst; reflexivity).
  assert (E : strip ([a; b; c; d] ++ body) = [a; b; c; d] ++ rstrip body).
  { unfold strip. change ([a; b; c; d] ++ body) with ([a; b; c] ++ d :: body).
    rewrite rstrip_app_nonspace by exact Sd.
    simpl. now rewrite Sa. }
  rewrite E. unfold drop_json_marker.
  rewrite lower_app, Htag, startswith_app.
  unfold slice_from, clamp. simpl length.
  rewrite Z.min_l by lia. simpl. apply strip_rstrip.
Qed.

Lemma index_of_marked (tag body : pystr) :
  lower tag = json_marker ->
  index_of fence (body ++ fence) = Some (length body) ->
  index_of fence ((tag ++ body) ++ fence) = Some (length (tag ++ body)).
Proof.
  intros Htag H.
  destruct (lower_json_inv _ Htag) as (a & b & c & d & -> & Ha & Hb & Hc & Hd).
  cbn [app length].
  rewrite !(@index_of_skip_char fence _ 96%N [96; 96]%N) by (reflexivity || lia).
  rewrite H. reflexivity.
Qed.

(** A payload without any backtick has no fence inside it. *)
Lemma index_of_no_backtick (body : pystr) :
  ~ In 96%N body ->
  index_of fence (body ++ fence) = Some (length body).
Proof.
  induction body as [|c body IH]; intros H; [reflexivity|].
  cbn [app length].
  rewrite (@index_of_skip_char fence c 96%N [96; 96]%N)
    by (reflexivity || (intros E; apply H; left; congruence)).
  rewrite IH by (intros E; apply H; now right). reflexivity.
Qed.

(** C1, as the code has it.  A reply that is one fenced block (white space
    allowed around it, no further fence inside its payload):
    [clean_gpt_output] removes the two fences and, when the block starts
    with the marker "json" in any letter case, the marker too, and returns
    the payload, stripped; without a marker it returns the stripped payload
    as long as that does not itself begin with the letters of the marker.
    At the literal reply of the spec this gives "[1,2]". *)
Theorem clean_gpt_output_fenced_block (pre post tag body : pystr) :
  forallb isspace pre = true ->
  forallb isspace post = true ->
  index_of fence (body ++ fence) = Some (length body) ->
  lower tag = json_marker \/
  tag = [] /\ startswith json_marker (lower (strip body)) = false ->
  clean_gpt_output (pre ++ fence ++ tag ++ body ++ fence ++ post) = strip body.
Proof.
  intros Hpre Hpost Hbody [Htag | [-> Hno]].
  - rewrite (app_assoc tag body (fence ++ post)).
    rewrite clean_fenced; try assumption.
    + now apply strip_marked.
    + now apply index_of_marked.
  - change ([] ++ body ++ fence ++ post) with (body ++ fence ++ post).
    rewrite clean_fenced by assumption.
    unfold drop_json_marker. now rewrite Hno.
Qed.

Lemma clean_gpt_output_fenced_block_literal :
  (forallb isspace [] = true /\
   index_of fence ((nl ++ u "[1,2]" ++ nl) ++ fence) =
     Some (length (nl ++ u "[1,2]" ++ nl)) /\
   lower (u "json") = json_marker) /\
  clean_gpt_output fenced_reply = u "[1,2]".
Proof.
  split; [repeat split|].
  exact (@clean_gpt_output_fenced_block [] [] (u "json") (nl ++ u "[1,2]" ++ nl)
           eq_refl eq_refl eq_refl (or_introl eq_refl)).
Defined.

(** The claim fails for a fenced block whose payload starts with the
    letters of the marker, which are then taken away from it, and for one
    whose payload holds a fence, which ends the block early. *)
Lemma clean_gpt_output_payload_cut :
  (clean_gpt_output jsonify_reply = u "ify([1,2])" /\
   strip (nl ++ u "jsonify([1,2])" ++ nl) = u "jsonify([1,2])" /\
   u "ify([1,2])" <> u "jsonify([1,2])") /\
  (clean_gpt_output fence_in_payload_reply = u "[" ++ dq /\
   strip (nl ++ u "[" ++ dq ++ fence ++ dq ++ u "]" ++ nl) =
     u "[" ++ dq ++ fence ++ dq ++ u "]" /\
   u "[" ++ dq <> u "[" ++ dq ++ fence ++ dq ++ u "]").
Proof.
  split; (split; [vm_compute; reflexivity|]);
    (split; [vm_compute; reflexivity | discriminate]).
Qed.

Lemma split_go_nonempty (sep s cur : pystr) (k : nat) :
  1 <= length (split_go sep k cur s).
Proof.
  revert k cur. induction s as [|c s IH]; intros k cur; simpl; [lia|].
  destruct k; [|apply IH].
  destruct (startswith sep (c :: s)); simpl; [lia | apply IH].
Qed.

(** The first piece and the rest, from the position of the first
    separator. *)
Lemma split_go_index (sep s cur : pystr) (i : nat) :
  sep <> [] ->
  index_of sep s = Some i ->
  split_go sep 0 cur s =
  (rev cur ++ firstn i s) :: split_go sep 0 [] (skipn (i + length sep) s).
Proof.
  intros Hsep. revert i cur. induction s as [|c s IH]; intros i cur H.
  - cbn [index_of] in H. destruct sep; [congruence | discriminate].
  - destruct i as [|i].
    + cbn [index_of] in H. destruct (startswith sep (c :: s)) eqn:E.
      * rewrite (startswith_split _ _ E) at 1.
        rewrite split_go_sep by exact Hsep.
        simpl. now rewrite app_nil_r.
      * destruct (index_of sep s); discriminate.
    + apply index_of_cons_Some in H as [Hs Hi].
      cbn [split_go]. rewrite Hs, (IH _ _ Hi).
      simpl. rewrite <- app_assoc. reflexivity.
Qed.

Lemma startswith_fence_no_marker (r : pystr) :
  drop_json_marker (fence ++ r) = fence ++ r.
Proof. reflexivity. Qed.

(** C10.  For a reply that starts with a fence: splitting on the fence
    yields fewer than three parts exactly when no second fence follows; in
    that case [clean_gpt_output] returns the stripped reply, fence included;
    and when a second fence follows at position [i] the fences are removed
    and the text between them is kept. *)
Theorem clean_gpt_output_unclosed_fence (s : pystr) :
  startswith fence (strip s) = true ->
  let rest := skipn 3 (strip s) in
  (length (split fence (strip s)) < 3 <-> index_of fence rest = None) /\
  (index_of fence rest = None ->
     clean_gpt_output s = strip s /\
     startswith fence (clean_gpt_output s) = true) /\
  (forall i, index_of fence rest = Some i ->
     clean_gpt_output s = drop_json_marker (strip (firstn i rest))).
Proof.
  intros Hs rest.
  pose proof (startswith_split _ _ Hs) as E.
  change (skipn (length fence) (strip s)) with rest in E.
  assert (Hnone : index_of fence rest = None ->
                  split fence (strip s) = [[]; rest]).
  { intros Hn. rewrite E. unfold split.
    rewrite split_go_sep by exact fence_nonempty.
    rewrite split_go_none by exact Hn. reflexivity. }
  assert (Hsome : forall i, index_of fence rest = Some i ->
                  split fence (strip s) =
                  [] :: firstn i rest ::
                    split fence (skipn (i + length fence) rest)).
  { intros i Hi. rewrite E. unfold split.
    rewrite split_go_sep by exact fence_nonempty.
    rewrite (@split_go_index fence rest [] i fence_nonempty Hi). reflexivity. }
  split; [|split].
  - split.
    + intros Hlen. destruct (index_of fence rest) as [i|] eqn:Hi; [|reflexivity].
      rewrite (Hsome i eq_refl) in Hlen. simpl in Hlen.
      pose proof (split_go_nonempty fence (skipn (i + 3) rest) [] 0).
      unfold split in Hlen. simpl in Hlen. lia.
    + intros Hn. rewrite (Hnone Hn). simpl. lia.
  - intros Hn. unfold clean_gpt_output. rewrite Hs, (Hnone Hn).
    cbn [length Nat.leb nth]. rewrite E, startswith_fence_no_marker.
    split; [reflexivity | apply startswith_app].
  - intros i Hi. unfold clean_gpt_output. rewrite Hs, (Hsome i Hi).
    pose proof (split_go_nonempty fence (skipn (i + length fence) rest) [] 0) as Hl.
    unfold split.
    destruct (split_go fence 0 [] (skipn (i + length fence) rest)); [simpl in Hl; lia|].
    reflexivity.
Qed.

Lemma clean_gpt_output_unclosed_fence_literal :
  startswith fence (strip unclosed_reply) = true /\
  index_of fence (skipn 3 (strip unclosed_reply)) = None /\
  clean_gpt_output unclosed_reply = unclosed_reply.
Proof.
  split; [reflexivity | split; [reflexivity|]].
  exact (proj1 (proj1 (proj2 (@clean_gpt_output_unclosed_fence unclosed_reply
                                eq_refl)) eq_refl)).
Defined.

(* ------------------------------------------------------------------ *)
(** ** JSON extraction *)

Lemma rfind_lower_bound (sub s : pystr) : (-1 <= rfind sub s)%Z.
Proof. unfold rfind, pos_or_minus1. destruct (rindex_of sub s); lia. Qed.

Lemma find_minus1 (sub s : pystr) :
  find sub s = (-1)%Z <-> index_of sub s = None.
Proof.
  unfold find, pos_or_minus1. destruct (index_of sub s); split;
    try reflexivity; try discriminate; lia.
Qed.

(** The paths of [parse_gpt_response], one after the other. *)
Lemma parse_gpt_response_paths (W : World) (response_text : pystr) :
  let cleaned_text := clean_gpt_output response_text in
  let start := find (u "[") cleaned_text in
  let json_str := slice cleaned_text start (rfind (u "]") cleaned_text + 1) in
  parse_gpt_response W response_text =
  if PyStr.eqb cleaned_text [] then
    Ret (error_object (u "GPT 응답이 비어 있습니다.") response_text)
  else if (start =? -1)%Z then
    Ret (error_object
           (u "응답을 JSON으로 변환할 수 없습니다: "
              ++ u "GPT 응답에서 JSON 데이터를 찾을 수 없습니다.") response_text)
  else
    match json_loads W json_str with
    | inl v =>
        if truthy v then Ret v
        else Ret (error_object (u "GPT 응답이 빈 JSON 배열입니다.") response_text)
    | inr e =>
        if caught_by JSONDecodeError e || caught_by ValueError e then
          Ret (error_object (u "응답을 JSON으로 변환할 수 없습니다: " ++ exn_msg e)
                 response_text)
        else Raise e
    end.
Proof.
  intros cleaned_text start json_str. unfold parse_gpt_response.
  fold cleaned_text. fold start. cbn [truthy]. rewrite negb_involutive.
  destruct (PyStr.eqb cleaned_text []); [reflexivity|].
  replace ((rfind (u "]") cleaned_text + 1 =? -1)%Z) with false
    by (symmetry; apply Z.eqb_neq;
        pose proof (rfind_lower_bound (u "]") cleaned_text); lia).
  rewrite orb_false_r.
  destruct (start =? -1)%Z; [reflexivity|].
  fold json_str. unfold loads.
  destruct (json_loads W json_str) as [v|e]; [|reflexivity].
  cbn [obind try_except]. destruct (truthy v); reflexivity.
Qed.

Section Brackets.

Variable c : N.




End Brackets.



Section BracketPositions.

Variable c : N.

Lemma index_of_char_intro (pre rest : pystr) :
  ~ In c pre -> index_of [c] (pre ++ c :: rest) = Some (length pre).
Proof.
  induction pre as [|x pre IH]; intros H.
  - cbn [app index_of startswith]. now rewrite N.eqb_refl.
  - cbn [app index_of startswith length].
    destruct (N.eqb_spec c x) as [E|E]; [exfalso; apply H; now left|].
    cbn [andb]. rewrite IH by (intros I; apply H; now right). reflexivity.
Qed.

Lemma rindex_of_char_notin (post : pystr) :
  ~ In c post -> rindex_of [c] post = None.
Proof.
  induction post as [|x post IH]; intros H; [reflexivity|].
  cbn [rindex_of startswith]. rewrite IH by (intros I; apply H; now right).
  destruct (N.eqb_spec c x) as [E|E]; [exfalso; apply H; now left|].
  reflexivity.
Qed.

Lemma rindex_of_char_intro (pre post : pystr) :
  ~ In c post -> rindex_of [c] (pre ++ c :: post) = Some (length pre).
Proof.
  intros H. induction pre as [|x pre IH].
  - cbn [app rindex_of startswith length].
    rewrite rindex_of_char_notin by exact H. rewrite N.eqb_refl. reflexivity.
  - cbn [app rindex_of length]. rewrite IH. reflexivity.
Qed.

End BracketPositions.

Lemma slice_in_range (s : pystr) (i k : nat) :
  i <= length s -> k <= length s ->
  slice s (Z.of_nat i) (Z.of_nat k) = firstn (k - i) (skipn i s).
Proof.
  intros Hi Hk. unfold slice, clamp.
  destruct (Z.ltb_spec (Z.of_nat i) 0); [lia|].
  destruct (Z.ltb_spec (Z.of_nat k) 0); [lia|].
  rewrite !Z.min_l by lia. rewrite Nat2Z.id. f_equal. lia.
Qed.

(** The slice of a text with one array in it, whatever surrounds the
    array. *)
Lemma slice_of_array (pre mid post : pystr) :
  ~ In 91%N pre -> ~ In 93%N post ->
  let s := pre ++ u "[" ++ mid ++ u "]" ++ post in
  find (u "[") s <> (-1)%Z /\
  slice s (find (u "[") s) (rfind (u "]") s + 1) = u "[" ++ mid ++ u "]".
Proof.
  change (u "[") with [91%N]. change (u "]") with [93%N].
  intros Hpre Hpost s. unfold find, rfind.
  assert (Hi : index_of [91%N] s = Some (length pre))
    by (apply index_of_char_intro; exact Hpre).
  assert (Hj : rindex_of [93%N] s = Some (length (pre ++ 91%N :: mid))).
  { unfold s. cbn [app].
    replace (pre ++ 91%N :: mid ++ 93%N :: post)
      with ((pre ++ 91%N :: mid) ++ 93%N :: post)
      by (rewrite <- app_assoc; reflexivity).
    apply rindex_of_char_intro; exact Hpost. }
  rewrite Hi, Hj. cbn [pos_or_minus1]. split; [lia|].
  assert (Ls : length s = length pre + (1 + (length mid + (1 + length post))))
    by (unfold s; rewrite !length_app; reflexivity).
  rewrite length_app in *. cbn [length] in *.
  replace (Z.of_nat (length pre + S (length mid)) + 1)%Z
    with (Z.of_nat (length pre + S (S (length mid)))) by lia.
  rewrite slice_in_range by lia.
  unfold s. rewrite skipn_app, skipn_all2 by lia.
  replace (length pre - length pre) with 0 by lia. cbn [skipn app].
  replace (length pre + S (S (length mid)) - length pre)
    with (S (length mid + 1)) by lia.
  cbn [firstn]. f_equal.
  rewrite firstn_app, firstn_all2 by lia.
  replace (length mid + 1 - length mid) with 1 by lia. reflexivity.
Qed.






Lemma deep_loads_deep_reply : json_loads deep_world deep_reply = inr recursion_error.
Proof.
  change (json_loads deep_world deep_reply) with (deep_loads deep_reply).
  unfold deep_loads. rewrite eqb_refl. reflexivity.
Qed.


(** C9.  A cleaned text that is empty gives the error object at once,
    whatever [json.loads] would do; and when the slice parses to a value that
    is false in a condition (the empty array above all) the value is not
    returned: the result is an error object that holds the reply as it was
    given. *)
Theorem parse_gpt_response_falsy (W : World) (response_text : pystr) :
  let cleaned_text := clean_gpt_output response_text in
  let start := find (u "[") cleaned_text in
  let json_str := slice cleaned_text start (rfind (u "]") cleaned_text + 1) in
  cleaned_text = [] \/
  (start <> (-1)%Z /\
   exists v, json_loads W json_str = inl v /\ truthy v = false) ->
  exists msg,
    parse_gpt_response W response_text = Ret (error_object msg response_text) /\
    dict_get [(u "error", PStr msg); (u "raw_response", PStr response_text)]
      (u "raw_response") = Some (PStr response_text) /\
    (cleaned_text = [] ->
       msg = u "GPT 응답이 비어 있습니다." /\
       forall W', parse_gpt_response W' response_text =
                  parse_gpt_response W response_text) /\
    (cleaned_text <> [] -> msg = u "GPT 응답이 빈 JSON 배열입니다.").
Proof.
  intros cleaned_text start json_str H.
  pose proof (parse_gpt_response_paths W response_text) as P.
  cbv zeta in P. fold cleaned_text in P. fold start in P. fold json_str in P.
  destruct (PyStr.eqb cleaned_text []) eqn:Hc.
  - apply eqb_eq in Hc. eexists. split; [exact P|].
    split; [reflexivity|]. split; [|congruence].
    intros _. split; [reflexivity|]. intros W'.
    rewrite P. rewrite (parse_gpt_response_paths W' response_text).
    cbv zeta. fold cleaned_text. rewrite Hc. reflexivity.
  - assert (Hne : cleaned_text <> [])
      by (intros E; rewrite E in Hc; discriminate).
    destruct H as [H | (Hs & v & Hl & Ht)]; [contradiction|].
    destruct (Z.eqb_spec start (-1)); [contradiction|].
    rewrite Hl, Ht in P. eexists. split; [exact P|].
    split; [reflexivity|]. split; [contradiction | reflexivity].
Qed.

Lemma parse_gpt_response_falsy_empty_array :
  (find (u "[") (clean_gpt_output (u "[]")) <> (-1)%Z /\
   json_loads (sample_world None []) (u "[]") = inl (PList []) /\
   truthy (PList []) = false) /\
  parse_gpt_response (sample_world None []) (u "[]") =
  Ret (error_object (u "GPT 응답이 빈 JSON 배열입니다.") (u "[]")).
Proof.
  assert (Hs : find (u "[") (clean_gpt_output (u "[]")) <> (-1)%Z)
    by discriminate.
  split; [split; [exact Hs | split; reflexivity]|].
  destruct (@parse_gpt_response_falsy (sample_world None []) (u "[]")
              (or_intror (conj Hs
                 (ex_intro _ (PList []) (conj eq_refl eq_refl)))))
    as (msg & P & _ & _ & M).
  rewrite P. rewrite (M ltac:(discriminate)). reflexivity.
Defined.

(* ------------------------------------------------------------------ *)
(** ** Question generation *)

Section GenerateQuestions.

Variable W : World.
Variable document_content : pyval.
Variable t : trace.
Variable reply : pystr.

Let doc : pystr :=
  match document_content with
  | PStr s => s
  | v => py_str W v
  end.
Let client : chat_model := ChatModel (u "gpt-4o-mini") 0 None.
Let chain : LLMChain := {| llm := client; prompt := question_prompt |}.

Hypothesis client_ok : ChatOpenAI_init W client = None.
Hypothesis model_reply : chain_run W chain [(u "document", doc)] = inl reply.

(** The paths of [generate_questions] once the model has replied. *)
Lemma generate_questions_paths :
  generate_questions W document_content t =
  (match json_loads W (clean_gpt_output reply) with
   | inl (PList l) =>
       if length l =? 10 then Ret (PList l)
       else Ret (error_object
                   (u "질문 생성 응답을 JSON으로 변환할 수 없습니다: "
                      ++ u "생성된 질문의 수가 10개가 아닙니다.")
                   (clean_gpt_output reply))
   | inl _ =>
       Ret (error_object
              (u "질문 생성 응답을 JSON으로 변환할 수 없습니다: "
                 ++ u "생성된 질문의 수가 10개가 아닙니다.")
              (clean_gpt_output reply))
   | inr e =>
       if caught_by JSONDecodeError e || caught_by ValueError e then
         Ret (error_object
                (u "질문 생성 응답을 JSON으로 변환할 수 없습니다: " ++ exn_msg e)
                (clean_gpt_output reply))
       else Raise e
   end,
   t ++ [EvChatOpenAI client; EvRun chain [(u "document", doc)]]).
Proof.
  unfold generate_questions, bind, new_ChatOpenAI, run, lift.
  fold doc. fold client. rewrite client_ok. fold chain. rewrite model_reply.
  rewrite <- app_assoc. cbn [app]. f_equal.
  unfold loads. destruct (json_loads W (clean_gpt_output reply)) as [v|m];
    [|reflexivity].
  destruct v as [| | | | |l|]; try reflexivity.
  cbn [obind is_list negb orb]. destruct (length l =? 10); reflexivity.
Qed.

End GenerateQuestions.




(** C4 at a fenced reply of two items: the error object of
    [generate_questions] holds the cleaned reply, which is not the reply the
    model gave. *)
Theorem generate_questions_raw_response_cleaned :
  fst (generate_questions (sample_world (Some (u "sk")) fenced_reply)
         (PStr (u "text")) []) =
  Ret (error_object
         (u "질문 생성 응답을 JSON으로 변환할 수 없습니다: "
            ++ u "생성된 질문의 수가 10개가 아닙니다.")
         (u "[1,2]")) /\
  clean_gpt_output fenced_reply = u "[1,2]" /\
  u "[1,2]" <> fenced_reply.
Proof.
  split; [|split; [reflexivity | discriminate]].
  rewrite (@generate_questions_paths (sample_world (Some (u "sk")) fenced_reply)
             (PStr (u "text")) [] fenced_reply eq_refl eq_refl).
  reflexivity.
Qed.

(* ------------------------------------------------------------------ *)
(** ** Evaluation *)

(** The paths of [evaluate_qa_pairs] once the model has replied: the error
    object holds the reply as the model gave it. *)
Lemma evaluate_qa_pairs_paths (W : World) (qa_pairs : pyval) (t : trace)
    (reply : pystr) :
  let api_key := getenv W OPENAI_API_KEY in
  let client := ChatModel (u "gpt-4o-mini") 0 api_key in
  let chain := {| llm := client; prompt := evaluation_prompt |} in
  let inputs := [(u "qa_pairs", json_dumps W qa_pairs)] in
  key_missing api_key = false ->
  ChatOpenAI_init W client = None ->
  chain_run W chain inputs = inl reply ->
  evaluate_qa_pairs W qa_pairs t =
  (match json_loads W (clean_gpt_output reply) with
   | inl evaluation => Ret evaluation
   | inr e =>
       Ret (error_object
              (u "평가 결과를 JSON으로 변환할 수 없습니다: " ++ exn_msg e) reply)
   end,
   t ++ [EvChatOpenAI client; EvRun chain inputs]).
Proof.
  intros api_key client chain inputs Hk Hc Hr.
  unfold evaluate_qa_pairs, bind, new_ChatOpenAI, run, lift.
  fold api_key. rewrite Hk. fold client. rewrite Hc.
  fold chain. fold inputs. rewrite Hr.
  rewrite <- app_assoc. cbn [app]. f_equal.
  unfold loads. destruct (json_loads W (clean_gpt_output reply)); reflexivity.
Qed.

(* ------------------------------------------------------------------ *)
(** ** The credential *)

Lemma analyze_with_gpt_missing_key (W : World) (file_type : pystr)
    (relevant_docs : pyval) (document_content : pystr) (t : trace) :
  key_missing (getenv W OPENAI_API_KEY) = true ->
  analyze_with_gpt W file_type relevant_docs document_content t =
  (Raise missing_key_error, t).
Proof. intros H. unfold analyze_with_gpt. rewrite H. reflexivity. Qed.

Lemma evaluate_qa_pairs_missing_key (W : World) (qa_pairs : pyval) (t : trace) :
  key_missing (getenv W OPENAI_API_KEY) = true ->
  evaluate_qa_pairs W qa_pairs t = (Raise missing_key_error, t).
Proof. intros H. unfold evaluate_qa_pairs. rewrite H. reflexivity. Qed.

(** [generate_questions] never reads the environment. *)
Lemma generate_questions_ignores_environment (W : World)
    (env : pystr -> option pystr) (document_content : pyval) (t : trace) :
  generate_questions
    {| getenv := env;
       ChatOpenAI_init := ChatOpenAI_init W;
       chain_run := chain_run W;
       json_loads := json_loads W;
       json_dumps := json_dumps W;
       py_str := py_str W;
       encode := encode W |} document_content t =
  generate_questions W document_content t.
Proof. reflexivity. Qed.

(** C5 with the variable set to the empty string and a client library that
    does not object: the two operations that test the key raise before
    anything is constructed, and [generate_questions], which does not test
    it, goes on to call the model. *)
Theorem generate_questions_no_key_check :
  let W := sample_world (Some []) ten_reply in
  key_missing (getenv W OPENAI_API_KEY) = true /\
  analyze_with_gpt W (u "PDF") (PList []) (u "text") [] =
    (Raise missing_key_error, []) /\
  evaluate_qa_pairs W (PList []) [] = (Raise missing_key_error, []) /\
  fst (generate_questions W (PStr (u "text")) []) = Ret ten_reply_value /\
  model_called (snd (generate_questions W (PStr (u "text")) [])) = true.
Proof.
  cbv zeta. split; [reflexivity|]. split; [reflexivity|].
  split; [reflexivity|].
  rewrite (@generate_questions_paths (sample_world (Some []) ten_reply)
             (PStr (u "text")) [] ten_reply eq_refl eq_refl).
  split; reflexivity.
Qed.

(* ------------------------------------------------------------------ *)
(** ** Answer generation *)

Ltac trace_leaf :=
  first
    [ exists []; split; [cbn [snd]; now rewrite app_nil_r | constructor]
    | eexists; split;
      [ cbn [snd]; rewrite <- ?app_assoc; reflexivity
      | repeat constructor; reflexivity ] ].

(** C8.  [truncate_document] returns its argument, and every call of the
    model that [analyze_with_gpt] makes passes the document it was given,
    whole, as [document_content]. *)
Theorem truncate_document_identity (W : World) (file_type : pystr)
    (relevant_docs : pyval) (document_content : pystr) (t : trace) :
  (forall (A : Type) (x : A), truncate_document x = x) /\
  exists evs,
    snd (analyze_with_gpt W file_type relevant_docs document_content t) = t ++ evs /\
    Forall (passes_document document_content) evs.
Proof.
  split; [reflexivity|].
  unfold analyze_with_gpt.
  destruct (key_missing (getenv W OPENAI_API_KEY)); [trace_leaf|].
  unfold bind, new_ChatOpenAI, lift, run, ret.
  destruct (ChatOpenAI_init W _); [trace_leaf|].
  destruct (load_relevant_docs W relevant_docs) as [docs|]; [|trace_leaf].
  destruct (question_list docs) as [questions|]; [|trace_leaf].
  destruct (chain_run W _ _) as [reply|]; [|trace_leaf].
  destruct (parse_gpt_response W reply) as [qa_pairs|]; [|trace_leaf].
  destruct qa_pairs as [| | | | |l|]; try trace_leaf.
  destruct (omap (attach_score W document_content) l); trace_leaf.
Qed.

(* ------------------------------------------------------------------ *)
(** ** Embedding score *)

Section Cosine.

Local Open Scope R_scope.

Lemma eps_pos : 0 < eps.
Proof. unfold eps. lra. Qed.

Lemma pytorch_cos_sim_opposite : pytorch_cos_sim [1] [-1] = -1.
Proof.
  unfold pytorch_cos_sim, normalize, norm. simpl.
  replace (1 * 1 + 0) with 1 by lra.
  replace (-1 * -1 + 0) with 1 by lra.
  rewrite sqrt_1, Rmax_left by (pose proof eps_pos; unfold eps in *; lra).
  lra.
Qed.

End Cosine.

(** C7 with an embedding model that places a question and a document in
    opposite directions: the score is -1, outside the interval from 0 to 1. *)
Theorem compute_embedding_score_negative :
  compute_embedding_score (sample_world None []) (PStr (u "What?")) (u "text")
    = Ret (-1)%R /\
  (-1 < 0)%R.
Proof.
  split; [|lra].
  unfold compute_embedding_score, oencode.
  change (encode (sample_world None []) (PStr (u "What?"))) with (@inl vec exn [1%R]).
  change (encode (sample_world None []) (PStr (u "text"))) with (@inl vec exn [(-1)%R]).
  cbn [obind]. f_equal. apply pytorch_cos_sim_opposite.
Qed.

(* ------------------------------------------------------------------ *)
(** ** Scores attached to the pairs *)

Lemma dict_get_set_eq (d : pydict) (k : pystr) (v : pyval) :
  dict_get (dict_set d k v) k = Some v.
Proof.
  induction d as [|[k0 v0] d IH]; simpl.
  - now rewrite eqb_refl.
  - destruct (PyStr.eqb k0 k) eqn:E; simpl; rewrite E; [reflexivity | exact IH].
Qed.

Lemma dict_get_set_neq (d : pydict) (k k' : pystr) (v : pyval) :
  k' <> k -> dict_get (dict_set d k v) k' = dict_get d k'.
Proof.
  intros H. induction d as [|[k0 v0] d IH]; simpl.
  - rewrite eqb_neq by congruence. reflexivity.
  - destruct (PyStr.eqb k0 k) eqn:E; simpl.
    + apply eqb_eq in E. subst k0. rewrite eqb_neq by congruence. reflexivity.
    + destruct (PyStr.eqb k0 k'); [reflexivity | exact IH].
Qed.

Lemma attach_score_scored (W : World) (document_content : pystr)
    (doc_emb : vec) (qa : pyval) :
  encode W (PStr document_content) = inl doc_emb ->
  scorable W qa ->
  exists qa', attach_score W document_content qa = Ret qa' /\
              scored W doc_emb qa qa'.
Proof.
  intros Hd (d & q_emb & -> & Hq).
  exists (PDict (dict_set d key_embedding_score
                   (PFloat (pytorch_cos_sim q_emb doc_emb)))).
  split.
  - unfold attach_score, py_get. fold (question_of d).
    assert (E : match dict_get d key_question with
                | Some x => Ret x
                | None => Ret (PStr [])
                end = Ret (question_of d))
      by (unfold question_of; destruct (dict_get d key_question); reflexivity).
    rewrite E. cbn [obind].
    unfold compute_embedding_score, oencode. rewrite Hq, Hd. reflexivity.
  - exists d, (dict_set d key_embedding_score
                 (PFloat (pytorch_cos_sim q_emb doc_emb))), q_emb.
    repeat split; try assumption.
    + apply dict_get_set_eq.
    + intros k Hk. now apply dict_get_set_neq.
Qed.

Lemma attach_scores_scored (W : World) (document_content : pystr)
    (doc_emb : vec) (qas : list pyval) :
  encode W (PStr document_content) = inl doc_emb ->
  Forall (scorable W) qas ->
  exists qas', omap (attach_score W document_content) qas = Ret qas' /\
               Forall2 (scored W doc_emb) qas qas'.
Proof.
  intros Hd H. induction H as [|qa qas Hqa _ IH].
  - exists []. split; [reflexivity | constructor].
  - destruct (attach_score_scored document_content Hd Hqa) as (qa' & E & S).
    destruct IH as (qas' & E' & S').
    exists (qa' :: qas'). split; [|now constructor].
    cbn [omap]. rewrite E. cbn [obind]. rewrite E'. reflexivity.
Qed.

(** A [relevant_docs] string on which [json.loads] raises: the
    [JSONDecodeError] becomes a [ValueError], anything else is passed on;
    either way the client has been constructed and the model not called. *)
Lemma analyze_with_gpt_rejected_docs (W : World) (file_type : pystr)
    (document_content : pystr) (t : trace) (s : pystr) (e : exn) :
  let client := ChatModel (u "gpt-4o") 0 (getenv W OPENAI_API_KEY) in
  key_missing (getenv W OPENAI_API_KEY) = false ->
  ChatOpenAI_init W client = None ->
  json_loads W s = inr e ->
  analyze_with_gpt W file_type (PStr s) document_content t =
  (if caught_by JSONDecodeError e
   then Raise (Exn ValueError (u "relevant_docs 문자열을 JSON으로 변환할 수 없습니다."))
   else Raise e,
   t ++ [EvChatOpenAI client]).
Proof.
  intros client Hk Hc Hl.
  unfold analyze_with_gpt. rewrite Hk.
  unfold bind, new_ChatOpenAI, lift. fold client. rewrite Hc.
  unfold load_relevant_docs, loads. rewrite Hl. cbn [try_except].
  destruct (caught_by JSONDecodeError e); reflexivity.
Qed.

(** C6, as the code has it.  With the key set and the client constructed:
    a [relevant_docs] given as a string on which [json.loads] raises a
    [JSONDecodeError] makes [analyze_with_gpt] raise a [ValueError] without
    calling the model (another exception of [json.loads] is passed on as it
    is); and when the reply of the model parses to a list of pairs, the
    operation returns the list in which every pair has, under
    "embedding_score", the cosine of the embedding of its question and the
    embedding of the whole document, its other entries unchanged. *)
Theorem analyze_with_gpt_embedding_score (W : World) (file_type : pystr)
    (relevant_docs : pyval) (document_content : pystr) (t : trace) :
  let api_key := getenv W OPENAI_API_KEY in
  let client := ChatModel (u "gpt-4o") 0 api_key in
  let chain := {| llm := client; prompt := answer_prompt |} in
  key_missing api_key = false ->
  ChatOpenAI_init W client = None ->
  (forall s e, relevant_docs = PStr s -> json_loads W s = inr e ->
     (caught_by JSONDecodeError e = true ->
      analyze_with_gpt W file_type relevant_docs document_content t =
      (Raise (Exn ValueError (u "relevant_docs 문자열을 JSON으로 변환할 수 없습니다.")),
       t ++ [EvChatOpenAI client])) /\
     (caught_by JSONDecodeError e = false ->
      analyze_with_gpt W file_type relevant_docs document_content t =
      (Raise e, t ++ [EvChatOpenAI client]))) /\
  (forall docs questions reply qas doc_emb,
     load_relevant_docs W relevant_docs = Ret docs ->
     question_list docs = Ret questions ->
     chain_run W chain
       (answer_inputs W file_type document_content questions) = inl reply ->
     parse_gpt_response W reply = Ret (PList qas) ->
     encode W (PStr document_content) = inl doc_emb ->
     Forall (scorable W) qas ->
     exists qas',
       fst (analyze_with_gpt W file_type relevant_docs document_content t) =
       Ret (PList qas') /\
       Forall2 (scored W doc_emb) qas qas').
Proof.
  intros api_key client chain Hk Hc. split.
  - intros s e -> Hl.
    rewrite (analyze_with_gpt_rejected_docs W file_type document_content t s Hk Hc Hl).
    split; intros E; rewrite E; reflexivity.
  - intros docs questions reply qas doc_emb Hd Hq Hr Hp He Hs.
    destruct (attach_scores_scored document_content He Hs) as (qas' & E & S).
    exists qas'. split; [|exact S].
    unfold analyze_with_gpt. fold api_key. rewrite Hk.
    unfold bind, new_ChatOpenAI, lift, run, ret. fold client. rewrite Hc, Hd, Hq.
    fold chain. unfold truncate_document. rewrite Hr, Hp, E. reflexivity.
Qed.

(** The claim that a [relevant_docs] string which is not valid JSON always
    gives a value error fails twice: without the key the [OpenAIError] comes
    first, and a string nested too deep for [json.loads] gives its
    [RecursionError], which [except json.JSONDecodeError] lets through. *)
Lemma analyze_with_gpt_not_value_error :
  (caught_by JSONDecodeError (Exn JSONDecodeError []) = true /\
   json_loads (sample_world None []) (u "not json") =
     inr (Exn JSONDecodeError (u "Expecting value: line 1 column 1 (char 0)")) /\
   fst (analyze_with_gpt (sample_world None []) (u "PDF") (PStr (u "not json"))
          (u "text") []) = Raise missing_key_error /\
   caught_by ValueError missing_key_error = false) /\
  (json_loads deep_world deep_reply = inr recursion_error /\
   fst (analyze_with_gpt deep_world (u "PDF") (PStr deep_reply) (u "text") []) =
     Raise recursion_error /\
   caught_by ValueError recursion_error = false).
Proof.
  split; [repeat split|].
  split; [exact deep_loads_deep_reply|]. split; [|reflexivity].
  rewrite (@analyze_with_gpt_rejected_docs deep_world (u "PDF") (u "text") []
             deep_reply recursion_error eq_refl eq_refl deep_loads_deep_reply).
  reflexivity.
Qed.

Lemma analyze_with_gpt_embedding_score_sample :
  (key_missing (getenv qa_world OPENAI_API_KEY) = false /\
   ChatOpenAI_init qa_world (ChatModel (u "gpt-4o") 0 (getenv qa_world OPENAI_API_KEY))
     = None /\
   parse_gpt_response qa_world qa_reply = Ret qa_reply_value) /\
  exists qas',
    fst (analyze_with_gpt qa_world (u "PDF") qa_docs (u "text") []) =
    Ret (PList qas') /\
    Forall2 (scored qa_world [(-1)%R])
      [PDict [(key_question, PStr (u "What?")); (u "답변", PStr (u "This."))]]
      qas'.
Proof.
  split; [repeat split|].
  refine (proj2 (@analyze_with_gpt_embedding_score qa_world (u "PDF") qa_docs
                   (u "text") [] eq_refl eq_refl)
            qa_docs [PDict [(key_question, PStr (u "What?"))]] qa_reply _
            [(-1)%R] eq_refl eq_refl eq_refl eq_refl eq_refl _).
  constructor; [|constructor].
  eexists. exists [1%R]. split; reflexivity.
Defined.

(* ================================================================== *)
(** * Further properties of the code *)

(* ------------------------------------------------------------------ *)
(** ** More on the response cleaner *)

Lemma leading_space_split (y : pystr) :
  forallb isspace y = true \/
  exists pre c rest,
    y = pre ++ c :: rest /\ forallb isspace pre = true /\ isspace c = false.
Proof.
  induction y as [|x y IH]; [now left|].
  destruct (isspace x) eqn:Hx.
  - destruct IH as [H | (pre & c & rest & -> & Hp & Hc)].
    + left. simpl. now rewrite Hx.
    + right. exists (x :: pre), c, rest. simpl. rewrite Hx. auto.
  - right. exists [], x, y. auto.
Qed.

Lemma lstrip_rstrip_comm (y : pystr) : rstrip (lstrip y) = lstrip (rstrip y).
Proof.
  destruct (leading_space_split y) as [H | (pre & c & rest & -> & Hp & Hc)].
  - now rewrite (lstrip_all_space _ H), (rstrip_all_space _ H).
  - rewrite (@rstrip_app_nonspace pre rest c Hc).
    rewrite !lstrip_app_nonspace, (lstrip_all_space _ Hp) by exact Hc.
    cbn [app]. now apply (@rstrip_app_nonspace [] rest c).
Qed.

Lemma strip_idem (s : pystr) : strip (strip s) = strip s.
Proof.
  unfold strip. rewrite (lstrip_rstrip_comm (rstrip s)).
  rewrite rstrip_idem, lstrip_idem. reflexivity.
Qed.

Lemma strip_all_space (s : pystr) : forallb isspace s = true -> strip s = [].
Proof. intros H. unfold strip. now rewrite (rstrip_all_space _ H). Qed.

(** X1.  Whatever the reply, the text [clean_gpt_output] returns has no
    white space at either end: stripping it again changes nothing. *)
Theorem clean_gpt_output_is_stripped (output : pystr) :
  strip (clean_gpt_output output) = clean_gpt_output output.
Proof.
  unfold clean_gpt_output.
  set (o := if startswith fence (strip output)
            then if 3 <=? length (split fence (strip output))
                 then strip (nth 1 (split fence (strip output)) [])
                 else strip output
            else strip output).
  assert (Ho : strip o = o).
  { unfold o. destruct (startswith fence (strip output));
      [destruct (3 <=? length (split fence (strip output)))|];
      apply strip_idem. }
  unfold drop_json_marker.
  destruct (startswith json_marker (lower o)); [apply strip_idem | exact Ho].
Qed.

(** The reply starts with a fenced block; anything may follow it. *)
Lemma strip_leading_block (pre inner rest : pystr) :
  forallb isspace pre = true ->
  strip (pre ++ fence ++ inner ++ fence ++ rest) =
  fence ++ inner ++ fence ++ rstrip rest.
Proof.
  intros Hpre. unfold strip. change fence with [96; 96; 96]%N.
  replace (pre ++ [96; 96; 96]%N ++ inner ++ [96; 96; 96]%N ++ rest)
    with ((pre ++ [96; 96; 96]%N ++ inner ++ [96; 96]%N) ++ 96%N :: rest)
    by (repeat (rewrite <- app_assoc; simpl); reflexivity).
  rewrite rstrip_app_nonspace by reflexivity.
  rewrite <- app_assoc. cbn [app].
  rewrite lstrip_app_nonspace, (lstrip_all_space _ Hpre) by reflexivity.
  cbn [app]. repeat (rewrite <- app_assoc; cbn [app]). reflexivity.
Qed.

Lemma clean_leading_block (pre inner rest : pystr) :
  forallb isspace pre = true ->
  index_of fence (inner ++ fence) = Some (length inner) ->
  clean_gpt_output (pre ++ fence ++ inner ++ fence ++ rest) =
  drop_json_marker (strip inner).
Proof.
  intros Hpre H. unfold clean_gpt_output.
  rewrite strip_leading_block by exact Hpre.
  rewrite startswith_app, split_fenced by exact H.
  pose proof (split_go_nonempty fence (rstrip rest) [] 0) as L.
  unfold split. destruct (split_go fence 0 [] (rstrip rest));
    [simpl in L; lia | reflexivity].
Qed.

(** X2.  Only the first fenced block counts: when the reply starts with a
    fenced block, the result is made from that block alone, and everything
    after its closing fence, further blocks included, is discarded. *)
Theorem clean_gpt_output_first_block (pre inner rest rest' : pystr) :
  forallb isspace pre = true ->
  index_of fence (inner ++ fence) = Some (length inner) ->
  clean_gpt_output (pre ++ fence ++ inner ++ fence ++ rest) =
    drop_json_marker (strip inner) /\
  clean_gpt_output (pre ++ fence ++ inner ++ fence ++ rest) =
    clean_gpt_output (pre ++ fence ++ inner ++ fence ++ rest').
Proof.
  intros Hpre H. rewrite !clean_leading_block by assumption. auto.
Qed.

Lemma clean_gpt_output_first_block_sample :
  (forallb isspace [] = true /\
   index_of fence ((u "json" ++ nl ++ u "[1,2]" ++ nl) ++ fence) =
     Some (length (u "json" ++ nl ++ u "[1,2]" ++ nl))) /\
  clean_gpt_output two_blocks_reply = u "[1,2]" /\
  clean_gpt_output two_blocks_reply = clean_gpt_output fenced_reply.
Proof.
  split; [split; reflexivity|].
  exact (@clean_gpt_output_first_block [] (u "json" ++ nl ++ u "[1,2]" ++ nl)
           (nl ++ u "or else" ++ nl ++ u "```json" ++ nl ++ u "[]" ++ nl ++ u "```")
           [] eq_refl eq_refl).
Defined.

Lemma space_no_backtick (l : pystr) :
  forallb isspace l = true -> ~ In 96%N l.
Proof.
  intros H Hin. rewrite forallb_forall in H.
  specialize (H _ Hin). discriminate.
Qed.

(* ------------------------------------------------------------------ *)
(** ** More on JSON extraction *)

(** X3.  A reply that is blank, or that starts with a fenced block holding
    nothing but white space, is cleaned to the empty text, and
    [parse_gpt_response] answers with the error object for an empty reply,
    in which the reply is kept as it was. *)
Theorem parse_gpt_response_blank (W : World) (response_text : pystr) :
  forallb isspace response_text = true \/
  (exists pre inner rest,
     response_text = pre ++ fence ++ inner ++ fence ++ rest /\
     forallb isspace pre = true /\ forallb isspace inner = true) ->
  clean_gpt_output response_text = [] /\
  parse_gpt_response W response_text =
  Ret (error_object (u "GPT 응답이 비어 있습니다.") response_text).
Proof.
  intros H.
  assert (E : clean_gpt_output response_text = []).
  { destruct H as [H | (pre & inner & rest & -> & Hp & Hi)].
    - unfold clean_gpt_output. rewrite (strip_all_space _ H). reflexivity.
    - rewrite clean_leading_block
        by (try assumption; apply index_of_no_backtick, space_no_backtick, Hi).
      rewrite (strip_all_space _ Hi). reflexivity. }
  split; [exact E|].
  rewrite parse_gpt_response_paths. cbv zeta. rewrite E. reflexivity.
Qed.

Lemma parse_gpt_response_blank_sample :
  forallb isspace (u "  " ++ nl) = true /\
  parse_gpt_response (sample_world None []) (u "  " ++ nl) =
  Ret (error_object (u "GPT 응답이 비어 있습니다.") (u "  " ++ nl)).
Proof.
  split; [reflexivity|].
  exact (proj2 (@parse_gpt_response_blank (sample_world None []) (u "  " ++ nl)
                  (or_introl eq_refl))).
Defined.

(** X4.  Prose around the array is tolerated: when the cleaned reply has
    one stretch from a "[" with no "[" before it to a "]" with no "]" after
    it, and [json.loads] turns that stretch into a value that is true in a
    condition, [parse_gpt_response] returns the value. *)
Theorem parse_gpt_response_extracts (W : World) (response_text : pystr)
    (pre mid post : pystr) (v : pyval) :
  clean_gpt_output response_text = pre ++ u "[" ++ mid ++ u "]" ++ post ->
  ~ In 91%N pre -> ~ In 93%N post ->
  json_loads W (u "[" ++ mid ++ u "]") = inl v ->
  truthy v = true ->
  parse_gpt_response W response_text = Ret v.
Proof.
  intros E Hpre Hpost Hl Ht.
  destruct (@slice_of_array pre mid post Hpre Hpost) as [Hs Hj]. cbv zeta in Hs, Hj.
  rewrite parse_gpt_response_paths. cbv zeta. rewrite E.
  rewrite eqb_neq
    by (change (u "[") with [91%N]; destruct pre; discriminate).
  destruct (Z.eqb_spec (find (u "[") (pre ++ u "[" ++ mid ++ u "]" ++ post)) (-1));
    [contradiction|].
  rewrite Hj, Hl, Ht. reflexivity.
Qed.

Lemma parse_gpt_response_extracts_sample :
  (clean_gpt_output prose_reply = u "Here: " ++ u "[" ++ u "1,2" ++ u "]" ++ u " done." /\
   json_loads (sample_world None []) (u "[" ++ u "1,2" ++ u "]") =
     inl (PList [PInt 1; PInt 2])) /\
  parse_gpt_response (sample_world None []) prose_reply =
  Ret (PList [PInt 1; PInt 2]).
Proof.
  split; [split; reflexivity|].
  refine (@parse_gpt_response_extracts (sample_world None []) prose_reply
            (u "Here: ") (u "1,2") (u " done.") _ eq_refl _ _ eq_refl eq_refl).
  - intros H. repeat (destruct H as [H|H]; [discriminate|]). exact H.
  - intros H. repeat (destruct H as [H|H]; [discriminate|]). exact H.
Defined.

(** X5.  An object that [parse_gpt_response] returns is never false in a
    condition; and a list it returns is not empty and is what [json.loads]
    made of the slice. *)
Theorem parse_gpt_response_truthy (W : World) (response_text : pystr)
    (v : pyval) :
  let cleaned_text := clean_gpt_output response_text in
  let start := find (u "[") cleaned_text in
  let json_str := slice cleaned_text start (rfind (u "]") cleaned_text + 1) in
  parse_gpt_response W response_text = Ret v ->
  truthy v = true /\
  (forall l, v = PList l ->
     l <> [] /\ start <> (-1)%Z /\ json_loads W json_str = inl (PList l)).
Proof.
  intros cleaned_text start json_str.
  rewrite (parse_gpt_response_paths W response_text).
  cbv zeta. fold cleaned_text. fold start. fold json_str.
  destruct (PyStr.eqb cleaned_text []).
  { intros E. injection E as <-. split; [reflexivity | discriminate]. }
  destruct (Z.eqb_spec start (-1)).
  { intros E. injection E as <-. split; [reflexivity | discriminate]. }
  destruct (json_loads W json_str) as [v'|e].
  - destruct (truthy v') eqn:Ht; intros E; injection E as <-.
    + split; [exact Ht|]. intros l ->. repeat split; try assumption.
      intros ->. discriminate.
    + split; [reflexivity | discriminate].
  - destruct (caught_by JSONDecodeError e || caught_by ValueError e);
      [|discriminate].
    intros E. injection E as <-. split; [reflexivity | discriminate].
Qed.

Lemma parse_gpt_response_truthy_sample :
  parse_gpt_response (sample_world None []) fenced_reply =
    Ret (PList [PInt 1; PInt 2]) /\
  truthy (PList [PInt 1; PInt 2]) = true /\
  json_loads (sample_world None []) (u "[1,2]") = inl (PList [PInt 1; PInt 2]).
Proof.
  split; [reflexivity|].
  destruct (@parse_gpt_response_truthy (sample_world None []) fenced_reply
              (PList [PInt 1; PInt 2]) eq_refl) as [T L].
  split; [exact T|]. exact (proj2 (proj2 (L _ eq_refl))).
Defined.

(* ------------------------------------------------------------------ *)
(** ** More on answer generation *)

Section AnalyzeWithGpt.

Variable W : World.
Variables file_type document_content : pystr.
Variable relevant_docs : pyval.
Variable t : trace.

Let client : chat_model := ChatModel (u "gpt-4o") 0 (getenv W OPENAI_API_KEY).
Let chain : LLMChain := {| llm := client; prompt := answer_prompt |}.

Hypothesis key_set : key_missing (getenv W OPENAI_API_KEY) = false.
Hypothesis client_ok : ChatOpenAI_init W client = None.

(** Up to the list comprehension: no model call yet. *)
Lemma analyze_with_gpt_before_call :
  analyze_with_gpt W file_type relevant_docs document_content t =
  match obind (load_relevant_docs W relevant_docs) question_list with
  | Raise e => (Raise e, t ++ [EvChatOpenAI client])
  | Ret questions =>
      match chain_run W chain
              (answer_inputs W file_type document_content questions) with
      | inr e =>
          (Raise e,
           t ++ [EvChatOpenAI client;
                 EvRun chain (answer_inputs W file_type document_content questions)])
      | inl reply =>
          (match parse_gpt_response W reply with
           | Ret (PList l) =>
               match omap (attach_score W document_content) l with
               | Ret l' => Ret (PList l')
               | Raise e => Raise e
               end
           | Ret v => Ret v
           | Raise e => Raise e
           end,
           t ++ [EvChatOpenAI client;
                 EvRun chain (answer_inputs W file_type document_content questions)])
      end
  end.
Proof.
  unfold analyze_with_gpt. rewrite key_set.
  unfold bind, new_ChatOpenAI, lift, run, ret. fold client. rewrite client_ok.
  destruct (load_relevant_docs W relevant_docs) as [docs|e]; [|reflexivity].
  cbn [obind]. destruct (question_list docs) as [questions|e]; [|reflexivity].
  fold chain. unfold truncate_document.
  destruct (chain_run W chain _) as [reply|e];
    rewrite <- app_assoc; cbn [app]; [|reflexivity].
  destruct (parse_gpt_response W reply) as [v|e]; [|reflexivity].
  destruct v as [| | | | |l|]; try reflexivity.
  destruct (omap (attach_score W document_content) l); reflexivity.
Qed.

End AnalyzeWithGpt.

Lemma omap_first_failure (A B : Type) (f : A -> outcome B)
    (l1 l2 : list A) (x : A) (e : exn) :
  Forall (fun a => exists b, f a = Ret b) l1 ->
  f x = Raise e ->
  omap f (l1 ++ x :: l2) = Raise e.
Proof.
  intros H Hx. induction H as [|a l1 (b & Hb) _ IH]; cbn [app omap].
  - rewrite Hx. reflexivity.
  - rewrite Hb. cbn [obind]. rewrite IH. reflexivity.
Qed.

Lemma omap_all (A B : Type) (f : A -> outcome B) (g : A -> B) (l : list A) :
  Forall (fun a => f a = Ret (g a)) l -> omap f l = Ret (map g l).
Proof.
  intros H. induction H as [|a l Ha _ IH]; [reflexivity|].
  cbn [omap map]. rewrite Ha. cbn [obind]. rewrite IH. reflexivity.
Qed.

(** X6.  Malformed model output is not raised by [analyze_with_gpt]: when
    [parse_gpt_response] gives anything but a list, its error object above
    all, that object is what the operation returns, after one model call. *)
Theorem analyze_with_gpt_returns_error_object (W : World)
    (file_type document_content : pystr) (relevant_docs : pyval) (t : trace)
    (docs : pyval) (questions : list pyval) (reply : pystr) (v : pyval) :
  let client := ChatModel (u "gpt-4o") 0 (getenv W OPENAI_API_KEY) in
  let chain := {| llm := client; prompt := answer_prompt |} in
  let inputs := answer_inputs W file_type document_content questions in
  key_missing (getenv W OPENAI_API_KEY) = false ->
  ChatOpenAI_init W client = None ->
  load_relevant_docs W relevant_docs = Ret docs ->
  question_list docs = Ret questions ->
  chain_run W chain inputs = inl reply ->
  parse_gpt_response W reply = Ret v ->
  is_list v = false ->
  analyze_with_gpt W file_type relevant_docs document_content t =
  (Ret v, t ++ [EvChatOpenAI client; EvRun chain inputs]).
Proof.
  intros client chain inputs Hk Hc Hd Hq Hr Hp Hv.
  rewrite analyze_with_gpt_before_call by assumption.
  rewrite Hd. cbn [obind]. rewrite Hq. fold client. fold chain. fold inputs.
  rewrite Hr, Hp. destruct v; try reflexivity. discriminate.
Qed.

Lemma analyze_with_gpt_returns_error_object_sample :
  (key_missing (getenv (sample_world (Some (u "sk")) (u "hello")) OPENAI_API_KEY)
     = false /\
   parse_gpt_response (sample_world (Some (u "sk")) (u "hello")) (u "hello") =
   Ret (error_object
          (u "응답을 JSON으로 변환할 수 없습니다: "
             ++ u "GPT 응답에서 JSON 데이터를 찾을 수 없습니다.") (u "hello"))) /\
  fst (analyze_with_gpt (sample_world (Some (u "sk")) (u "hello")) (u "PDF")
         qa_docs (u "text") []) =
  Ret (error_object
         (u "응답을 JSON으로 변환할 수 없습니다: "
            ++ u "GPT 응답에서 JSON 데이터를 찾을 수 없습니다.") (u "hello")).
Proof.
  split; [split; reflexivity|].
  rewrite (@analyze_with_gpt_returns_error_object
             (sample_world (Some (u "sk")) (u "hello")) (u "PDF") (u "text")
             qa_docs [] qa_docs [PDict [(key_question, PStr (u "What?"))]]
             (u "hello") _ eq_refl eq_refl eq_refl eq_refl eq_refl eq_refl eq_refl).
  reflexivity.
Defined.

Lemma attach_score_non_dict (W : World) (document_content : pystr) (x : pyval) :
  is_dict x = false ->
  exists msg, attach_score W document_content x = Raise (Exn AttributeError msg).
Proof.
  intros H. destruct x; try discriminate; eexists; reflexivity.
Qed.

(** X7.  A pair that is not a dict stops [analyze_with_gpt]: when the reply
    parses to a list and the first element the loop cannot call [get] on is
    reached, the operation raises an [AttributeError]; it does not return an
    error object. *)
Theorem analyze_with_gpt_non_dict_pair (W : World)
    (file_type document_content : pystr) (relevant_docs : pyval) (t : trace)
    (docs : pyval) (questions : list pyval) (reply : pystr)
    (l1 l2 : list pyval) (x : pyval) (doc_emb : vec) :
  let client := ChatModel (u "gpt-4o") 0 (getenv W OPENAI_API_KEY) in
  let chain := {| llm := client; prompt := answer_prompt |} in
  let inputs := answer_inputs W file_type document_content questions in
  key_missing (getenv W OPENAI_API_KEY) = false ->
  ChatOpenAI_init W client = None ->
  load_relevant_docs W relevant_docs = Ret docs ->
  question_list docs = Ret questions ->
  chain_run W chain inputs = inl reply ->
  parse_gpt_response W reply = Ret (PList (l1 ++ x :: l2)) ->
  encode W (PStr document_content) = inl doc_emb ->
  Forall (scorable W) l1 ->
  is_dict x = false ->
  exists msg,
    fst (analyze_with_gpt W file_type relevant_docs document_content t) =
    Raise (Exn AttributeError msg).
Proof.
  intros client chain inputs Hk Hc Hd Hq Hr Hp He Hs Hx.
  destruct (attach_score_non_dict W document_content x Hx) as (msg & Hm).
  exists msg.
  rewrite analyze_with_gpt_before_call by assumption.
  rewrite Hd. cbn [obind]. rewrite Hq. fold client. fold chain. fold inputs.
  rewrite Hr, Hp. cbn [fst].
  rewrite (@omap_first_failure _ _ (attach_score W document_content) l1 l2 x
             (Exn AttributeError msg)); [reflexivity | | exact Hm].
  apply Forall_impl with (2 := Hs). intros qa Hqa.
  destruct (attach_score_scored document_content He Hqa) as (qa' & E & _).
  now exists qa'.
Qed.

Lemma analyze_with_gpt_non_dict_pair_sample :
  (key_missing (getenv (sample_world (Some (u "sk")) (u "[1,2]")) OPENAI_API_KEY)
     = false /\
   parse_gpt_response (sample_world (Some (u "sk")) (u "[1,2]")) (u "[1,2]") =
   Ret (PList ([] ++ PInt 1 :: [PInt 2])) /\
   is_dict (PInt 1) = false) /\
  exists msg,
    fst (analyze_with_gpt (sample_world (Some (u "sk")) (u "[1,2]")) (u "PDF")
           qa_docs (u "text") []) = Raise (Exn AttributeError msg).
Proof.
  split; [repeat split|].
  exact (@analyze_with_gpt_non_dict_pair
           (sample_world (Some (u "sk")) (u "[1,2]")) (u "PDF") (u "text")
           qa_docs [] qa_docs [PDict [(key_question, PStr (u "What?"))]]
           (u "[1,2]") [] [PInt 2] (PInt 1) [(-1)%R]
           eq_refl eq_refl eq_refl eq_refl eq_refl eq_refl eq_refl
           (Forall_nil _) eq_refl).
Defined.

Lemma question_list_missing_key (l1 l2 : list pyval) (d : pydict) :
  Forall has_question l1 ->
  dict_get d key_question = None ->
  question_list (PList (l1 ++ PDict d :: l2)) = Raise (Exn KeyError key_question).
Proof.
  intros H Hd. unfold question_list. cbn [py_iter obind].
  apply omap_first_failure.
  - apply Forall_impl with (2 := H). intros a (da & q & -> & Hq).
    cbn [py_getitem]. rewrite Hq. eexists. reflexivity.
  - cbn [py_getitem]. rewrite Hd. reflexivity.
Qed.

(** X8.  A question object without the key "질문" makes [analyze_with_gpt]
    raise a [KeyError] for that key, once the client is constructed and
    before the model is called. *)
Theorem analyze_with_gpt_missing_question (W : World)
    (file_type document_content : pystr) (relevant_docs : pyval) (t : trace)
    (l1 l2 : list pyval) (d : pydict) :
  let client := ChatModel (u "gpt-4o") 0 (getenv W OPENAI_API_KEY) in
  key_missing (getenv W OPENAI_API_KEY) = false ->
  ChatOpenAI_init W client = None ->
  load_relevant_docs W relevant_docs = Ret (PList (l1 ++ PDict d :: l2)) ->
  Forall has_question l1 ->
  dict_get d key_question = None ->
  analyze_with_gpt W file_type relevant_docs document_content t =
    (Raise (Exn KeyError key_question), t ++ [EvChatOpenAI client]) /\
  model_called (snd (analyze_with_gpt W file_type relevant_docs document_content t))
    = model_called t.
Proof.
  intros client Hk Hc Hd Hq Hn.
  rewrite analyze_with_gpt_before_call by assumption.
  rewrite Hd. cbn [obind]. rewrite question_list_missing_key by assumption.
  split; [reflexivity|]. cbn [snd]. unfold model_called.
  rewrite existsb_app. cbn. now rewrite orb_false_r.
Qed.

Lemma analyze_with_gpt_missing_question_sample :
  (key_missing (getenv qa_world OPENAI_API_KEY) = false /\
   load_relevant_docs qa_world (PList [PDict [(u "question", PStr (u "What?"))]]) =
   Ret (PList ([] ++ PDict [(u "question", PStr (u "What?"))] :: [])) /\
   dict_get [(u "question", PStr (u "What?"))] key_question = None) /\
  fst (analyze_with_gpt qa_world (u "PDF")
         (PList [PDict [(u "question", PStr (u "What?"))]]) (u "text") []) =
  Raise (Exn KeyError key_question).
Proof.
  split; [repeat split|].
  rewrite (proj1 (@analyze_with_gpt_missing_question qa_world (u "PDF") (u "text")
                    (PList [PDict [(u "question", PStr (u "What?"))]]) [] [] []
                    [(u "question", PStr (u "What?"))]
                    eq_refl eq_refl eq_refl (Forall_nil _) eq_refl)).
  reflexivity.
Defined.

(** X9.  The question list may come serialized: a string that [json.loads]
    turns into an object that is not itself a string gives exactly what the
    object would give, outcome and calls alike. *)
Theorem analyze_with_gpt_serialized_docs (W : World)
    (file_type document_content : pystr) (s : pystr) (v : pyval) (t : trace) :
  json_loads W s = inl v ->
  is_str v = false ->
  analyze_with_gpt W file_type (PStr s) document_content t =
  analyze_with_gpt W file_type v document_content t.
Proof.
  intros Hl Hv.
  assert (E : load_relevant_docs W (PStr s) = load_relevant_docs W v).
  { unfold load_relevant_docs, loads. rewrite Hl.
    destruct v; try reflexivity. discriminate. }
  unfold analyze_with_gpt. rewrite E. reflexivity.
Qed.

Lemma analyze_with_gpt_serialized_docs_sample :
  (json_loads qa_world (u "[]") = inl (PList []) /\ is_str (PList []) = false) /\
  analyze_with_gpt qa_world (u "PDF") (PStr (u "[]")) (u "text") [] =
  analyze_with_gpt qa_world (u "PDF") (PList []) (u "text") [].
Proof.
  split; [split; reflexivity|].
  exact (@analyze_with_gpt_serialized_docs qa_world (u "PDF") (u "text")
           (u "[]") (PList []) [] eq_refl eq_refl).
Defined.

(* ------------------------------------------------------------------ *)
(** ** More on evaluation *)

(** X10.  [evaluate_qa_pairs] checks nothing about what the model sent
    back: whatever [json.loads] makes of the whole cleaned reply is returned
    as it is, an empty or ill-shaped value too; only a reply that does not
    parse gives an error object, which holds the reply as the model gave
    it. *)
Theorem evaluate_qa_pairs_no_validation (W : World) (qa_pairs : pyval)
    (t : trace) (reply : pystr) :
  let api_key := getenv W OPENAI_API_KEY in
  let client := ChatModel (u "gpt-4o-mini") 0 api_key in
  let chain := {| llm := client; prompt := evaluation_prompt |} in
  key_missing api_key = false ->
  ChatOpenAI_init W client = None ->
  chain_run W chain [(u "qa_pairs", json_dumps W qa_pairs)] = inl reply ->
  (forall v, json_loads W (clean_gpt_output reply) = inl v ->
     fst (evaluate_qa_pairs W qa_pairs t) = Ret v) /\
  (forall e, json_loads W (clean_gpt_output reply) = inr e ->
     fst (evaluate_qa_pairs W qa_pairs t) =
     Ret (error_object
            (u "평가 결과를 JSON으로 변환할 수 없습니다: " ++ exn_msg e) reply)).
Proof.
  intros api_key client chain Hk Hc Hr.
  rewrite (evaluate_qa_pairs_paths W qa_pairs t Hk Hc Hr). cbn [fst].
  split; [intros v E | intros m E]; rewrite E; reflexivity.
Qed.

Lemma evaluate_qa_pairs_no_validation_sample :
  (key_missing (getenv (sample_world (Some (u "sk")) (u "[]")) OPENAI_API_KEY)
     = false /\
   json_loads (sample_world (Some (u "sk")) (u "[]")) (clean_gpt_output (u "[]")) =
   inl (PList [])) /\
  fst (evaluate_qa_pairs (sample_world (Some (u "sk")) (u "[]")) qa_reply_value [])
  = Ret (PList []).
Proof.
  split; [split; reflexivity|].
  exact (proj1 (@evaluate_qa_pairs_no_validation
                  (sample_world (Some (u "sk")) (u "[]")) qa_reply_value []
                  (u "[]") eq_refl eq_refl eq_refl) (PList []) eq_refl).
Defined.

(* ------------------------------------------------------------------ *)
(** ** Calls of the model *)

Ltac calls_leaf :=
  first
    [ exists []; split; [cbn [snd]; now rewrite app_nil_r|];
      split; [cbn; lia | constructor]
    | eexists; split;
      [ cbn [snd]; rewrite <- ?app_assoc; reflexivity
      | split; [cbn; lia | repeat constructor] ] ].

Lemma generate_questions_calls (W : World) (document_content : pyval) (t : trace) :
  exists evs,
    snd (generate_questions W document_content t) = t ++ evs /\
    length (filter is_run evs) <= 1 /\ Forall zero_temperature evs.
Proof.
  unfold generate_questions, bind, new_ChatOpenAI, run, lift.
  destruct (ChatOpenAI_init W _); [calls_leaf|].
  destruct (chain_run W _ _); calls_leaf.
Qed.

Lemma evaluate_qa_pairs_calls (W : World) (qa_pairs : pyval) (t : trace) :
  exists evs,
    snd (evaluate_qa_pairs W qa_pairs t) = t ++ evs /\
    length (filter is_run evs) <= 1 /\ Forall zero_temperature evs.
Proof.
  unfold evaluate_qa_pairs.
  destruct (key_missing (getenv W OPENAI_API_KEY)); [calls_leaf|].
  unfold bind, new_ChatOpenAI, run, lift.
  destruct (ChatOpenAI_init W _); [calls_leaf|].
  destruct (chain_run W _ _); calls_leaf.
Qed.

Lemma analyze_with_gpt_calls (W : World) (file_type : pystr)
    (relevant_docs : pyval) (document_content : pystr) (t : trace) :
  exists evs,
    snd (analyze_with_gpt W file_type relevant_docs document_content t) = t ++ evs /\
    length (filter is_run evs) <= 1 /\ Forall zero_temperature evs.
Proof.
  unfold analyze_with_gpt.
  destruct (key_missing (getenv W OPENAI_API_KEY)); [calls_leaf|].
  unfold bind, new_ChatOpenAI, lift, run, ret.
  destruct (ChatOpenAI_init W _); [calls_leaf|].
  destruct (load_relevant_docs W relevant_docs) as [docs|]; [|calls_leaf].
  destruct (question_list docs) as [questions|]; [|calls_leaf].
  destruct (chain_run W _ _) as [reply|]; [|calls_leaf].
  destruct (parse_gpt_response W reply) as [qa_pairs|]; [|calls_leaf].
  destruct qa_pairs as [| | | | |l|]; try calls_leaf.
  destruct (omap (attach_score W document_content) l); calls_leaf.
Qed.

(** X13.  No retry: each of the three operations calls the model at most
    once, whatever happens, and every client it constructs or calls was
    asked for temperature 0. *)
Theorem one_model_call_per_operation (W : World) (t : trace) :
  (forall document_content,
     exists evs,
       snd (generate_questions W document_content t) = t ++ evs /\
       length (filter is_run evs) <= 1 /\ Forall zero_temperature evs) /\
  (forall file_type relevant_docs document_content,
     exists evs,
       snd (analyze_with_gpt W file_type relevant_docs document_content t) =
         t ++ evs /\
       length (filter is_run evs) <= 1 /\ Forall zero_temperature evs) /\
  (forall qa_pairs,
     exists evs,
       snd (evaluate_qa_pairs W qa_pairs t) = t ++ evs /\
       length (filter is_run evs) <= 1 /\ Forall zero_temperature evs).
Proof.
  split; [|split]; intros.
  - apply generate_questions_calls.
  - apply analyze_with_gpt_calls.
  - apply evaluate_qa_pairs_calls.
Qed.

(** X14.  A failure of the model call is never turned into an error object:
    with the key set and the client constructed, when [chain.run] raises,
    each of the three operations raises the same exception
    ([analyze_with_gpt] once its question list is built). *)
Theorem model_errors_propagate (W : World) (e : exn) :
  key_missing (getenv W OPENAI_API_KEY) = false ->
  (forall m, ChatOpenAI_init W m = None) ->
  (forall c inputs, chain_run W c inputs = inr e) ->
  (forall document_content t,
     fst (generate_questions W document_content t) = Raise e) /\
  (forall qa_pairs t, fst (evaluate_qa_pairs W qa_pairs t) = Raise e) /\
  (forall file_type relevant_docs document_content t questions,
     obind (load_relevant_docs W relevant_docs) question_list = Ret questions ->
     fst (analyze_with_gpt W file_type relevant_docs document_content t) = Raise e).
Proof.
  intros Hk Hc Hr. split; [|split].
  - intros d t. unfold generate_questions, bind, new_ChatOpenAI, run.
    rewrite Hc, Hr. reflexivity.
  - intros qa t. unfold evaluate_qa_pairs. rewrite Hk.
    unfold bind, new_ChatOpenAI, run. rewrite Hc, Hr. reflexivity.
  - intros ft rd d t questions Hq.
    rewrite analyze_with_gpt_before_call by auto.
    rewrite Hq, Hr. reflexivity.
Qed.

Lemma model_errors_propagate_sample :
  key_missing (getenv (failing_world (Some (u "sk"))) OPENAI_API_KEY) = false /\
  fst (generate_questions (failing_world (Some (u "sk"))) (PStr (u "text")) []) =
    Raise api_error /\
  fst (evaluate_qa_pairs (failing_world (Some (u "sk"))) qa_reply_value []) =
    Raise api_error /\
  fst (analyze_with_gpt (failing_world (Some (u "sk"))) (u "PDF") qa_docs
         (u "text") []) = Raise api_error.
Proof.
  split; [reflexivity|].
  destruct (@model_errors_propagate (failing_world (Some (u "sk"))) api_error
              eq_refl (fun _ => eq_refl) (fun _ _ => eq_refl)) as (G & E & A).
  split; [apply G | split; [apply E | eapply A; reflexivity]].
Defined.

(** X15.  The key comes first in [analyze_with_gpt] and
    [evaluate_qa_pairs]: with OPENAI_API_KEY unset or empty they raise the
    [OpenAIError] whatever their arguments are (a [relevant_docs] string
    that is not JSON included), and nothing is constructed or called. *)
Theorem credential_checked_first (W : World) :
  key_missing (getenv W OPENAI_API_KEY) = true ->
  (forall file_type relevant_docs document_content t,
     analyze_with_gpt W file_type relevant_docs document_content t =
     (Raise missing_key_error, t)) /\
  (forall qa_pairs t,
     evaluate_qa_pairs W qa_pairs t = (Raise missing_key_error, t)) /\
  exn_cls missing_key_error = OpenAIError.
Proof.
  intros H. split; [|split; [|reflexivity]]; intros.
  - now apply analyze_with_gpt_missing_key.
  - now apply evaluate_qa_pairs_missing_key.
Qed.

Lemma credential_checked_first_sample :
  key_missing (getenv (sample_world None []) OPENAI_API_KEY) = true /\
  analyze_with_gpt (sample_world None []) (u "PDF") (PStr (u "not json"))
    (u "text") [] = (Raise missing_key_error, []).
Proof.
  split; [reflexivity|].
  apply (proj1 (@credential_checked_first (sample_world None []) eq_refl)).
Defined.

(* ------------------------------------------------------------------ *)
(** ** The script *)

(** X16.  The question objects the script builds from the generated
    questions go through [analyze_with_gpt]'s handling of [relevant_docs]
    unchanged, whatever the questions are: no [ValueError], [KeyError] or
    [TypeError] can come from them. *)
Theorem main_question_list (W : World) (qs : list pyval) :
  obind (load_relevant_docs W (PList (map as_question qs))) question_list =
  Ret (map as_question qs).
Proof.
  cbn [load_relevant_docs obind]. unfold question_list. cbn [py_iter obind].
  rewrite (@omap_all _ _ _ (fun x => x)).
  - now rewrite map_id.
  - apply Forall_forall. intros x Hx. apply in_map_iff in Hx as (q & <- & _).
    unfold as_question. cbn [py_getitem dict_get]. rewrite eqb_refl. reflexivity.
Qed.

Section Main.

Variable W : World.
Variable H : Host.
Variable doc : pystr.
Hypothesis doc_read : reads_document H doc.

(** The script, stage by stage, once it has its document. *)
Lemma main_stages (log : script_log) :
  main W H log =
  let (o1, e1) := generate_questions W (PStr doc) [] in
  match o1 with
  | Raise e => (Raise e, log ++ map Called e1)
  | Ret questions =>
      let problem :=
        (Ret tt,
         log ++ map Called e1 ++
           [Printed label_questions (Some questions);
            Printed label_problem (Some questions)]) in
      match questions with
      | PList qs =>
          if length qs =? 10 then
            let (o2, e2) :=
              analyze_with_gpt W (u "PDF") (PList (map as_question qs)) doc [] in
            match o2 with
            | Raise e =>
                (Raise e,
                 log ++ map Called e1 ++
                   Printed label_questions (Some questions) :: map Called e2)
            | Ret qa_pairs =>
                let (o3, e3) := evaluate_qa_pairs W qa_pairs [] in
                let log3 :=
                  log ++ map Called e1 ++
                    Printed label_questions (Some questions) :: map Called e2 ++
                    Printed label_qa (Some qa_pairs) :: map Called e3 in
                match o3 with
                | Raise e => (Raise e, log3)
                | Ret evaluation =>
                    match open_w H result_file with
                    | Some e =>
                        (Raise e,
                         log3 ++ [Printed label_evaluation (Some evaluation)])
                    | None =>
                        match dump_error H (final_result qa_pairs evaluation) with
                        | Some e =>
                            (Raise e,
                             log3 ++
                               [Printed label_evaluation (Some evaluation);
                                Opened result_file])
                        | None =>
                            (Ret tt,
                             log3 ++
                               [Printed label_evaluation (Some evaluation);
                                Opened result_file;
                                Wrote result_file
                                  (final_result qa_pairs evaluation);
                                Printed label_saved None])
                        end
                    end
                end
            end
          else problem
      | _ => problem
      end
  end.
Proof.
  assert (D : (if 1 <? length (argv H) then sret (nth 1 (argv H) [])
               else read_input H label_prompt) log
              = (Ret doc, log)).
  { destruct doc_read as [[L E] | [L E]].
    - apply Nat.ltb_lt in L. rewrite L, E. reflexivity.
    - apply Nat.ltb_ge in L. rewrite L. unfold read_input. rewrite E. reflexivity. }
  unfold main, sbind. rewrite D. unfold call at 1.
  destruct (generate_questions W (PStr doc) []) as [[questions|e] e1];
    [|reflexivity].
  unfold print at 1.
  assert (P : forall v : pyval,
            print label_problem (Some v)
              ((log ++ map Called e1) ++ [Printed label_questions (Some v)])
            = (Ret tt,
               log ++ map Called e1 ++
                 [Printed label_questions (Some v);
                  Printed label_problem (Some v)])).
  { intros v. unfold print. repeat rewrite <- app_assoc. reflexivity. }
  destruct questions as [| | | | |qs|];
    [apply P | apply P | apply P | apply P | apply P | | apply P].
  destruct (length qs =? 10); [|apply P].
  unfold call at 1.
  destruct (analyze_with_gpt W (u "PDF") (PList (map as_question qs)) doc [])
    as [[qa_pairs|e] e2].
  2:{ repeat rewrite <- app_assoc. reflexivity. }
  unfold print at 1. unfold call at 1.
  destruct (evaluate_qa_pairs W qa_pairs []) as [[evaluation|e] e3].
  2:{ repeat (rewrite <- app_assoc; cbn [app]). reflexivity. }
  unfold print at 1. unfold dump_to.
  destruct (open_w H result_file).
  - repeat (rewrite <- app_assoc; cbn [app]). reflexivity.
  - destruct (dump_error H (final_result qa_pairs evaluation)).
    + repeat (rewrite <- app_assoc; cbn [app]). reflexivity.
    + unfold print. repeat (rewrite <- app_assoc; cbn [app]). reflexivity.
Qed.

End Main.


(** X18.  Without ten questions nothing else happens: when
    [generate_questions] returns anything but a list of ten items (its error
    object, say), the script prints it twice, under the two labels, ends
    normally, and neither calls the other two operations nor writes a
    file. *)
Theorem main_stops_without_ten_questions (W : World) (H : Host)
    (log : script_log) (doc : pystr) (v : pyval) (e1 : trace) :
  reads_document H doc ->
  generate_questions W (PStr doc) [] = (Ret v, e1) ->
  (forall qs, v = PList qs -> length qs <> 10) ->
  main W H log =
  (Ret tt,
   log ++ map Called e1 ++
     [Printed label_questions (Some v); Printed label_problem (Some v)]).
Proof.
  intros Hd Hg Hv. rewrite (main_stages W Hd log), Hg.
  destruct v as [| | | | |qs|]; try reflexivity.
  destruct (Nat.eqb_spec (length qs) 10) as [E|E]; [|reflexivity].
  now specialize (Hv qs eq_refl).
Qed.

(** X19.  With OPENAI_API_KEY unset or empty and a client library that does
    not object, the script still has the model generate the questions; only
    then does [analyze_with_gpt] raise the [OpenAIError], which ends the
    script with nothing written. *)
Theorem main_missing_key (W : World) (H : Host) (log : script_log)
    (doc reply : pystr) (qs : list pyval) :
  let client := ChatModel (u "gpt-4o-mini") 0 None in
  let chain := {| llm := client; prompt := question_prompt |} in
  reads_document H doc ->
  key_missing (getenv W OPENAI_API_KEY) = true ->
  ChatOpenAI_init W client = None ->
  chain_run W chain [(u "document", doc)] = inl reply ->
  json_loads W (clean_gpt_output reply) = inl (PList qs) ->
  length qs = 10 ->
  main W H log =
  (Raise missing_key_error,
   log ++ [Called (EvChatOpenAI client);
           Called (EvRun chain [(u "document", doc)]);
           Printed label_questions (Some (PList qs))]).
Proof.
  intros client chain Hd Hk Hc Hr Hj Hl.
  rewrite (main_stages W Hd log).
  rewrite (@generate_questions_paths W (PStr doc) [] reply Hc Hr).
  rewrite Hj, Hl. cbn [Nat.eqb]. rewrite Hl. cbn [Nat.eqb].
  rewrite analyze_with_gpt_missing_key by exact Hk.
  cbn [app map]. reflexivity.
Qed.


Lemma main_stops_without_ten_questions_sample :
  (reads_document sample_host (u "text") /\
   fst (generate_questions (sample_world (Some (u "sk")) fenced_reply)
          (PStr (u "text")) []) =
   Ret (error_object
          (u "질문 생성 응답을 JSON으로 변환할 수 없습니다: "
             ++ u "생성된 질문의 수가 10개가 아닙니다.") (u "[1,2]"))) /\
  fst (main (sample_world (Some (u "sk")) fenced_reply) sample_host []) = Ret tt /\
  filter is_wrote
    (snd (main (sample_world (Some (u "sk")) fenced_reply) sample_host [])) = [] /\
  length (filter is_model_call
    (snd (main (sample_world (Some (u "sk")) fenced_reply) sample_host []))) = 1.
Proof.
  assert (Hd : reads_document sample_host (u "text"))
    by (left; split; [cbn; lia | reflexivity]).
  split; [split; [exact Hd | reflexivity]|].
  rewrite (@main_stops_without_ten_questions
             (sample_world (Some (u "sk")) fenced_reply) sample_host []
             (u "text") _ _ Hd eq_refl ltac:(discriminate)).
  repeat split; reflexivity.
Defined.

Lemma main_missing_key_sample :
  (reads_document sample_host (u "text") /\
   key_missing (getenv (script_world (Some [])) OPENAI_API_KEY) = true) /\
  fst (main (script_world (Some [])) sample_host []) = Raise missing_key_error /\
  length (filter is_model_call (snd (main (script_world (Some [])) sample_host [])))
    = 1 /\
  filter is_wrote (snd (main (script_world (Some [])) sample_host [])) = [].
Proof.
  assert (Hd : reads_document sample_host (u "text"))
    by (left; split; [cbn; lia | reflexivity]).
  split; [split; [exact Hd | reflexivity]|].
  rewrite (@main_missing_key (script_world (Some [])) sample_host []
             (u "text") ten_reply (map PInt [1; 2; 3; 4; 5; 6; 7; 8; 9; 10]%Z)
             Hd eq_refl eq_refl eq_refl eq_refl eq_refl).
  repeat split; reflexivity.
Defined.

Lemma model_calls_of_operation (e : trace) :
  length (filter is_model_call (map Called e)) = length (filter is_run e).
Proof.
  induction e as [|[m|c i] e IH]; cbn; [reflexivity | exact IH | now rewrite IH].
Qed.

Lemma no_write_in_operation (e : trace) : filter is_wrote (map Called e) = [].
Proof. induction e as [|ev e IH]; [reflexivity | exact IH]. Qed.

Lemma no_open_in_operation (e : trace) : filter is_opened (map Called e) = [].
Proof. induction e as [|ev e IH]; [reflexivity | exact IH]. Qed.

Lemma operation_writes_nothing (e : trace) :
  Forall writes_result_file (map Called e).
Proof. induction e; constructor; [exact I | assumption]. Qed.

Lemma host_cases (H : Host) :
  (exists doc, reads_document H doc) \/
  (exists e, length (argv H) <= 1 /\ input H label_prompt = inr e).
Proof.
  destruct (Nat.ltb_spec 1 (length (argv H))) as [L|L].
  - left. exists (nth 1 (argv H) []). left. auto.
  - destruct (input H label_prompt) as [line|e] eqn:E.
    + left. exists line. right. auto.
    + right. exists e. auto.
Qed.

Ltac count_log :=
  repeat (rewrite ?filter_app, ?length_app;
          cbn [filter is_model_call is_wrote is_opened length app]);
  rewrite ?model_calls_of_operation, ?no_write_in_operation,
    ?no_open_in_operation;
  cbn [length]; try lia.

Ltac bounded_leaf :=
  eexists; split; [cbn [snd]; reflexivity|];
  split; [count_log | split; [count_log | split; [count_log|]]];
  repeat first [ apply Forall_app; split
               | apply operation_writes_nothing
               | apply Forall_cons; [first [exact I | reflexivity]|]
               | apply Forall_nil ].

(** X20.  Whatever the world and the host, one run of the script calls
    the model at most three times and writes at most one file, and a file it
    opens or writes is Result.json. *)
Theorem main_bounded (W : World) (H : Host) (log : script_log) :
  exists evs,
    snd (main W H log) = log ++ evs /\
    length (filter is_model_call evs) <= 3 /\
    length (filter is_wrote evs) <= 1 /\
    length (filter is_opened evs) <= 1 /\
    Forall writes_result_file evs.
Proof.
  destruct (host_cases H) as [(doc & Hd) | (e & L & E)].
  2:{ exists []. unfold main, sbind.
      apply Nat.ltb_ge in L. rewrite L. unfold read_input. rewrite E.
      cbn [snd]. rewrite app_nil_r. repeat split; cbn; try lia. constructor. }
  rewrite (main_stages W Hd log).
  destruct (generate_questions_calls W (PStr doc) []) as (v1 & S1 & L1 & _).
  destruct (generate_questions W (PStr doc) []) as [[questions|e] e1];
    cbn [snd app] in S1; subst v1; [|bounded_leaf].
  destruct questions as [| | | | |qs|]; try bounded_leaf.
  destruct (length qs =? 10); [|bounded_leaf].
  destruct (analyze_with_gpt_calls W (u "PDF") (PList (map as_question qs)) doc [])
    as (v2 & S2 & L2 & _).
  destruct (analyze_with_gpt W (u "PDF") (PList (map as_question qs)) doc [])
    as [[qa_pairs|e] e2]; cbn [snd app] in S2; subst v2; [|bounded_leaf].
  destruct (evaluate_qa_pairs_calls W qa_pairs []) as (v3 & S3 & L3 & _).
  destruct (evaluate_qa_pairs W qa_pairs []) as [[evaluation|e] e3];
    cbn [snd app] in S3; subst v3; [|bounded_leaf].
  destruct (open_w H result_file);
    [|destruct (dump_error H (final_result qa_pairs evaluation))];
    cbv zeta; rewrite <- !app_assoc; bounded_leaf.
Qed.

(* ------------------------------------------------------------------ *)
(** ** The marker without a fence, and the questions sent to the model *)

Lemma lstrip_skip (pre x : pystr) :
  forallb isspace pre = true -> lstrip (pre ++ x) = lstrip x.
Proof.
  induction pre as [|c pre IH]; intros H; [reflexivity|].
  cbn [forallb] in H. apply andb_true_iff in H as [Hc Hp].
  cbn [app lstrip]. rewrite Hc. now apply IH.
Qed.

Lemma strip_skip (pre x : pystr) :
  forallb isspace pre = true -> strip (pre ++ x) = strip x.
Proof.
  intros H. unfold strip.
  rewrite <- !lstrip_rstrip_comm, lstrip_skip by exact H. reflexivity.
Qed.

(** X21.  The marker needs no fence and no word boundary: a reply whose
    first four code points after leading white space spell "json" in any
    letter case loses them, whatever comes next, and what is left is
    returned stripped. *)
Theorem clean_gpt_output_bare_marker (pre tag body : pystr) :
  forallb isspace pre = true ->
  lower tag = json_marker ->
  clean_gpt_output (pre ++ tag ++ body) = strip body.
Proof.
  intros Hpre Htag. unfold clean_gpt_output.
  rewrite strip_skip by exact Hpre.
  destruct (lower_json_inv _ Htag) as (a & b & c & d & E & Ha & _ & _ & Hd).
  assert (Sa : isspace a = false) by (destruct Ha; subst; reflexivity).
  assert (Sd : isspace d = false) by (destruct Hd; subst; reflexivity).
  assert (F : startswith fence (strip (tag ++ body)) = false).
  { subst tag. unfold strip.
    change ([a; b; c; d] ++ body) with ([a; b; c] ++ d :: body).
    rewrite rstrip_app_nonspace by exact Sd.
    cbn [app lstrip]. rewrite Sa.
    change fence with [96; 96; 96]%N. cbn [startswith].
    destruct (N.eqb_spec 96 a) as [Ea|]; [|reflexivity]. lia. }
  rewrite F. now apply strip_marked.
Qed.

Lemma clean_gpt_output_bare_marker_sample :
  (forallb isspace (u " ") = true /\ lower (u "JSON") = json_marker) /\
  clean_gpt_output (u " " ++ u "JSON" ++ u "ify [1,2] ") = u "ify [1,2]".
Proof.
  split; [split; reflexivity|].
  exact (@clean_gpt_output_bare_marker (u " ") (u "JSON") (u "ify [1,2] ")
           eq_refl eq_refl).
Defined.

(** X22.  Of each question object only the entry "질문" reaches the model:
    when every object has one, the list comprehension succeeds and yields,
    in order, one object per question holding that entry alone. *)
Theorem question_list_keeps_question_only (docs : list pyval) :
  Forall has_question docs ->
  exists questions,
    question_list (PList docs) = Ret questions /\
    Forall2 (fun doc question =>
               exists d q, doc = PDict d /\
                           dict_get d key_question = Some q /\
                           question = as_question q) docs questions.
Proof.
  intros H. unfold question_list. cbn [py_iter obind].
  induction H as [|doc docs (d & q & -> & Hq) _ (questions & E & F)].
  - exists []. split; [reflexivity | constructor].
  - exists (as_question q :: questions). split.
    + cbn [omap py_getitem]. rewrite Hq. cbn [obind]. rewrite E. reflexivity.
    + constructor; [|exact F]. exists d, q. auto.
Qed.

Lemma question_list_keeps_question_only_sample :
  has_question (PDict [(u "id", PInt 7); (key_question, PStr (u "What?"))]) /\
  exists questions,
    question_list
      (PList [PDict [(u "id", PInt 7); (key_question, PStr (u "What?"))]]) =
    Ret questions /\
    Forall2 (fun doc question =>
               exists d q, doc = PDict d /\
                           dict_get d key_question = Some q /\
                           question = as_question q)
      [PDict [(u "id", PInt 7); (key_question, PStr (u "What?"))]] questions.
Proof.
  assert (Hq : has_question
                 (PDict [(u "id", PInt 7); (key_question, PStr (u "What?"))]))
    by (eexists; eexists; split; reflexivity).
  split; [exact Hq|].
  exact (@question_list_keeps_question_only _ (Forall_cons _ Hq (Forall_nil _))).
Defined.

(** X23.  An empty question list is no special case: with the key set and
    the client constructed, [analyze_with_gpt] still calls the model once,
    with the serialized empty list as its questions, and goes on with the
    reply. *)
Theorem analyze_with_gpt_empty_questions (W : World)
    (file_type document_content : pystr) (t : trace) :
  let client := ChatModel (u "gpt-4o") 0 (getenv W OPENAI_API_KEY) in
  let chain := {| llm := client; prompt := answer_prompt |} in
  let inputs := answer_inputs W file_type document_content [] in
  key_missing (getenv W OPENAI_API_KEY) = false ->
  ChatOpenAI_init W client = None ->
  snd (analyze_with_gpt W file_type (PList []) document_content t) =
    t ++ [EvChatOpenAI client; EvRun chain inputs] /\
  input_get inputs (u "questions") = Some (json_dumps W (PList [])) /\
  (forall e, chain_run W chain inputs = inr e ->
     fst (analyze_with_gpt W file_type (PList []) document_content t) = Raise e) /\
  (forall reply v,
     chain_run W chain inputs = inl reply ->
     parse_gpt_response W reply = Ret v -> is_list v = false ->
     fst (analyze_with_gpt W file_type (PList []) document_content t) = Ret v).
Proof.
  intros client chain inputs Hk Hc.
  rewrite analyze_with_gpt_before_call by assumption.
  cbn [load_relevant_docs obind question_list py_iter omap].
  fold client. fold chain. fold inputs.
  split; [|split; [reflexivity|split]].
  - destruct (chain_run W chain inputs); reflexivity.
  - intros e E. rewrite E. reflexivity.
  - intros reply v E P L. rewrite E, P. destruct v; try reflexivity.
    discriminate.
Qed.

Lemma analyze_with_gpt_empty_questions_sample :
  key_missing (getenv qa_world OPENAI_API_KEY) = false /\
  model_called (snd (analyze_with_gpt qa_world (u "PDF") (PList []) (u "text") []))
    = true.
Proof.
  split; [reflexivity|].
  rewrite (proj1 (@analyze_with_gpt_empty_questions qa_world (u "PDF") (u "text")
                    [] eq_refl eq_refl)).
  reflexivity.
Defined.
